(** * SearchBar: the suggestion-fetch lifecycle and the navigation resolver

    A shallow embedding of [src/app/components/SearchBar.tsx].

    - JavaScript strings are modelled by [string]; every [ascii] stands for
      one UTF-16 code unit below 256, so [String.length] is the [.length]
      of the source.
    - The component state ([useState]) is a record that the handlers
      thread explicitly; console output, network requests, calls of the
      [resetState] prop and router pushes are appended to an effect log.
    - The [async] arrow function handed to [debounce] is split at its
      suspension point: the part that runs when the debounced call fires
      and the part that runs when the request settles. *)

From Stdlib Require Import ZArith Bool Ascii String List Lia.
From stdpp Require Import gmap strings list.

Import ListNotations.
Local Open Scope string_scope.
Local Open Scope Z_scope.

(** ** The JavaScript built-ins the component calls *)

Module JS.

(** [WhiteSpace] and [LineTerminator] code units below 256: TAB, LF, VT,
    FF, CR, SP and NBSP.  They are what [trim] strips and what
    [Number] skips around a numeric literal. *)
Definition isWhiteSpace (c : ascii) : bool :=
  let n := nat_of_ascii c in
  ((9 <=? n)%nat && (n <=? 13)%nat) || (n =? 32)%nat || (n =? 160)%nat.

Fixpoint trimStart (s : string) : string :=
  match s with
  | EmptyString => EmptyString
  | String c s' => if isWhiteSpace c then trimStart s' else s
  end.

Fixpoint trimEnd (s : string) : string :=
  match s with
  | EmptyString => EmptyString
  | String c s' =>
      match trimEnd s' with
      | EmptyString => if isWhiteSpace c then EmptyString else String c EmptyString
      | t => String c t
      end
  end.

(** [String.prototype.trim] *)
Definition trim (s : string) : string := trimEnd (trimStart s).

(** [String.prototype.startsWith] *)
Definition startsWith (s search : string) : bool := String.prefix search s.

(** [String.prototype.split] with a one-character separator.  The result
    is never empty: the empty string splits into one empty piece. *)
Fixpoint split (sep : ascii) (s : string) : list string :=
  match s with
  | EmptyString => [EmptyString]
  | String c s' =>
      if Ascii.eqb c sep then EmptyString :: split sep s'
      else match split sep s' with
           | [] => [String c EmptyString]
           | t :: ts => String c t :: ts
           end
  end.

(** [Array.prototype.slice(0, n)] *)
Definition slice0 {A} (n : nat) (l : list A) : list A := firstn n l.

(** [Array.prototype.join] *)
Fixpoint join (sep : string) (l : list string) : string :=
  match l with
  | [] => EmptyString
  | [x] => x
  | x :: rest => x ++ sep ++ join sep rest
  end.

(** *** [Number(string)] followed by [isNaN]

    [Number] applied to a string is [StringToNumber]: the string is
    read as [StrWhiteSpace? StrNumericLiteral? StrWhiteSpace?] and the
    result is NaN exactly when it does not match that grammar.  Only
    the NaN test is observed by the component, so the model is the
    recogniser of the grammar. *)

Definition isDecimalDigit (c : ascii) : bool :=
  let n := nat_of_ascii c in (48 <=? n)%nat && (n <=? 57)%nat.

Definition isHexDigit (c : ascii) : bool :=
  let n := nat_of_ascii c in
  isDecimalDigit c || ((65 <=? n)%nat && (n <=? 70)%nat)
                   || ((97 <=? n)%nat && (n <=? 102)%nat).

Definition isOctalDigit (c : ascii) : bool :=
  let n := nat_of_ascii c in (48 <=? n)%nat && (n <=? 55)%nat.

Definition isBinaryDigit (c : ascii) : bool :=
  let n := nat_of_ascii c in (n =? 48)%nat || (n =? 49)%nat.

Fixpoint allChars (p : ascii -> bool) (s : string) : bool :=
  match s with
  | EmptyString => true
  | String c s' => p c && allChars p s'
  end.

(** One or more characters, all satisfying [p]. *)
Definition digits1 (p : ascii -> bool) (s : string) : bool :=
  match s with
  | EmptyString => false
  | _ => allChars p s
  end.

(** Splits [s] into its longest prefix of decimal digits and the rest. *)
Fixpoint spanDigits (s : string) : string * string :=
  match s with
  | EmptyString => (EmptyString, EmptyString)
  | String c s' =>
      if isDecimalDigit c
      then let '(d, r) := spanDigits s' in (String c d, r)
      else (EmptyString, s)
  end.

Definition dropSign (s : string) : string :=
  match s with
  | String "+" s' => s'
  | String "-" s' => s'
  | _ => s
  end.

(** [ExponentPart?] followed by the end of the literal. *)
Definition isExponentOpt (s : string) : bool :=
  match s with
  | EmptyString => true
  | String "e" s' => digits1 isDecimalDigit (dropSign s')
  | String "E" s' => digits1 isDecimalDigit (dropSign s')
  | _ => false
  end.

(** [StrUnsignedDecimalLiteral] *)
Definition isStrUnsignedDecimalLiteral (s : string) : bool :=
  if String.eqb s "Infinity" then true
  else
    let '(intPart, r) := spanDigits s in
    match r with
    | String "." r' =>
        let '(fracPart, r'') := spanDigits r' in
        (negb (String.eqb intPart "") || negb (String.eqb fracPart ""))
        && isExponentOpt r''
    | _ => negb (String.eqb intPart "") && isExponentOpt r
    end.

(** [StrNumericLiteral]: a signed decimal literal, or an unsigned
    binary, octal or hexadecimal integer literal. *)
Definition isStrNumericLiteral (s : string) : bool :=
  match s with
  | String "0" (String "x" r) | String "0" (String "X" r) => digits1 isHexDigit r
  | String "0" (String "o" r) | String "0" (String "O" r) => digits1 isOctalDigit r
  | String "0" (String "b" r) | String "0" (String "B" r) => digits1 isBinaryDigit r
  | _ => isStrUnsignedDecimalLiteral (dropSign s)
  end.

(** [isNaN(Number(s))] for a string [s]. *)
Definition Number_isNaN (s : string) : bool :=
  let t := trim s in
  match t with
  | EmptyString => false
  | _ => negb (isStrNumericLiteral t)
  end.

(** *** [encodeURIComponent] *)

(** The characters [encodeURIComponent] leaves alone: letters, digits
    and [- _ . ! ~ * ' ( )]. *)
Definition isUriUnreserved (c : ascii) : bool :=
  let n := nat_of_ascii c in
  ((65 <=? n)%nat && (n <=? 90)%nat) || ((97 <=? n)%nat && (n <=? 122)%nat)
  || isDecimalDigit c
  || existsb (Nat.eqb n) [45; 95; 46; 33; 126; 42; 39; 40; 41]%nat.

Definition hexDigit (n : nat) : ascii :=
  ascii_of_nat (if (n <? 10)%nat then 48 + n else 55 + n)%nat.

(** ["%XX"] for one octet. *)
Definition percent (octet : nat) : string :=
  String "%" (String (hexDigit (octet / 16)) (String (hexDigit (octet mod 16)) EmptyString)).

(** The UTF-8 octets of a code unit below 256, each percent-escaped. *)
Definition escapeCodeUnit (c : ascii) : string :=
  let n := nat_of_ascii c in
  if (n <? 128)%nat then percent n
  else percent (192 + n / 64) ++ percent (128 + n mod 64).

Fixpoint encodeURIComponent (s : string) : string :=
  match s with
  | EmptyString => EmptyString
  | String c s' =>
      (if isUriUnreserved c then String c EmptyString else escapeCodeUnit c)
      ++ encodeURIComponent s'
  end.

End JS.

(** ** Data model *)

(** [interface Suggestion] *)
Record Suggestion := { suggestion : string; type : string }.

(** The two route names of [routeType?: "course" | "professor" | null]. *)
Inductive RouteType := RouteCourse | RouteProfessor.

(** [interface SearchBarProps].  An optional prop that is absent (or
    [null]) is [None]; [resetState] records whether the caller supplied
    the callback, whose calls show up in the effect log. *)
Record SearchBarProps := {
  initialValue : string;
  resetState : bool;
  course : option string;
  professor : option string;
  routeType : option RouteType
}.

(** What can be thrown inside [fetchSuggestions]. *)
Inductive Error :=
| FetchFailed                      (* [fetch] rejects: network failure *)
| ApiRequestFailed (status : Z)    (* [new Error(`API request failed: ...`)] *)
| JsonSyntaxError.                 (* [response.json()] rejects *)

(** Everything the component does to the outside world. *)
Inductive Effect :=
| Invoked (input : string)         (* the debounced arrow function is called *)
| HttpGet (id : nat) (url : string)
| ConsoleError (e : Error)
| UnhandledRejection (e : Error)
| ResetStateCalled
| RouterPush (url : string).

(** How a request settles.  A [fetch] promise rejects on a transport
    failure; otherwise it carries a status and a body that
    [response.json()] can or cannot parse.  A body that parses is taken
    to be a list of suggestions, as the type of the state cell says. *)
Inductive Body := BodyJson (data : list Suggestion) | BodyMalformed.
Inductive FetchOutcome := NetworkError | HttpResponse (status : Z) (body : Body).

(** [Response.ok]: the status is in the range 200-299. *)
Definition response_ok (status : Z) : bool := (200 <=? status) && (status <=? 299).

(** The three [useState] cells, the clock, the debounced call that is
    waiting for its trailing edge, the requests that have not settled
    yet (request number to URL), and the effect log in the order the
    effects happened. *)
Record World := {
  searchInput : string;
  suggestions : list Suggestion;
  isLoading : bool;
  now : Z;
  pending : option (string * Z);
  inflight : gmap nat string;
  nextId : nat;
  log : list Effect
}.

Definition mount (p : SearchBarProps) : World :=
  {| searchInput := initialValue p; suggestions := []; isLoading := false;
     now := 0; pending := None; inflight := ∅; nextId := 0%nat; log := [] |}.

(** ** A state-and-exception monad for the handlers

    A computation may change the world and then either return or throw;
    what it changed before throwing stays changed. *)

Definition M (A : Type) : Type := World -> World * (Error + A).

Definition ret {A} (a : A) : M A := fun w => (w, inr a).

Definition throw {A} (e : Error) : M A := fun w => (w, inl e).

Definition bind {A B} (m : M A) (k : A -> M B) : M B :=
  fun w => match m w with
           | (w', inr a) => k a w'
           | (w', inl e) => (w', inl e)
           end.

Declare Scope js_scope.
Delimit Scope js_scope with js.
Notation "x <- m ;; k" := (bind m (fun x => k))
  (at level 20, m at level 99, k at level 200, only parsing) : js_scope.
Notation "m ;; k" := (bind m (fun _ => k))
  (at level 100, k at level 200, only parsing, right associativity) : js_scope.
Local Open Scope js_scope.

(** [try { body } catch (error) { handler } finally { fin }] *)
Definition try_catch_finally {A} (body : M A) (handler : Error -> M A) (fin : M unit) : M A :=
  fun w =>
    let '(w1, r1) := body w in
    let '(w2, r2) := match r1 with
                     | inl e => handler e w1
                     | inr a => (w1, inr a)
                     end in
    match fin w2 with
    | (w3, inl e) => (w3, inl e)
    | (w3, inr _) => (w3, r2)
    end.

Definition setSearchInput (v : string) : M unit := fun w =>
  ({| searchInput := v; suggestions := suggestions w; isLoading := isLoading w;
      now := now w; pending := pending w; inflight := inflight w;
      nextId := nextId w; log := log w |}, inr tt).

Definition setSuggestions (v : list Suggestion) : M unit := fun w =>
  ({| searchInput := searchInput w; suggestions := v; isLoading := isLoading w;
      now := now w; pending := pending w; inflight := inflight w;
      nextId := nextId w; log := log w |}, inr tt).

Definition setIsLoading (v : bool) : M unit := fun w =>
  ({| searchInput := searchInput w; suggestions := suggestions w; isLoading := v;
      now := now w; pending := pending w; inflight := inflight w;
      nextId := nextId w; log := log w |}, inr tt).

Definition emit (e : Effect) : M unit := fun w =>
  ({| searchInput := searchInput w; suggestions := suggestions w; isLoading := isLoading w;
      now := now w; pending := pending w; inflight := inflight w;
      nextId := nextId w; log := log w ++ [e] |}, inr tt).

Definition console_error (e : Error) : M unit := emit (ConsoleError e).

Definition router_push (url : string) : M unit := emit (RouterPush url).

(** [fetch(url)] up to the [await]: the request goes out and is
    remembered under a fresh number until it settles. *)
Definition fetch (url : string) : M unit := fun w =>
  ({| searchInput := searchInput w; suggestions := suggestions w; isLoading := isLoading w;
      now := now w; pending := pending w;
      inflight := <[nextId w := url]> (inflight w);
      nextId := S (nextId w); log := log w ++ [HttpGet (nextId w) url] |}, inr tt).

(** [await fetch(...)] once the request has settled. *)
Definition await_fetch (o : FetchOutcome) : M (Z * Body) :=
  match o with
  | NetworkError => throw FetchFailed
  | HttpResponse status body => ret (status, body)
  end.

(** [await response.json()] *)
Definition response_json (b : Body) : M (list Suggestion) :=
  match b with
  | BodyJson data => ret data
  | BodyMalformed => throw JsonSyntaxError
  end.

(** ** The debounced call *)

(** [debounce] is imported from [lodash.debounce], whose code is not
    among the sources.  A waiting call is the pair of its argument and
    the time at which it fires. *)
Module Debounce.

(** Modelled from the spec: [lodash.debounce]'s debounced function.  A
    call schedules the query; calls that follow within the quiet window
    collapse into one query carrying only the last text, so the waiting
    call is replaced and fires one quiet window after the latest call. *)
Definition call {A} (wait : Z) (time : Z) (args : A) (d : option (A * Z)) : option (A * Z) :=
  Some (args, time + wait).

(** Modelled from the spec: [lodash.debounce]'s [cancel].  The scheduled
    call that has not fired yet is dropped. *)
Definition cancel {A} (d : option (A * Z)) : option (A * Z) := None.

(** Modelled from the spec: the timer of [lodash.debounce].  The argument
    of the waiting call when its quiet window has passed at [time]. *)
Definition due {A} (time : Z) (d : option (A * Z)) : option A :=
  match d with
  | Some (args, fireAt) => if fireAt <=? time then Some args else None
  | None => None
  end.

End Debounce.

(** The second argument of [debounce(..., 300)]. *)
Definition quietWindow : Z := 300.

Definition setPending (d : option (string * Z)) (w : World) : World :=
  {| searchInput := searchInput w; suggestions := suggestions w; isLoading := isLoading w;
     now := now w; pending := d; inflight := inflight w;
     nextId := nextId w; log := log w |}.

Definition setNow (t : Z) (w : World) : World :=
  {| searchInput := searchInput w; suggestions := suggestions w; isLoading := isLoading w;
     now := t; pending := pending w; inflight := inflight w;
     nextId := nextId w; log := log w |}.

Definition settle (id : nat) (w : World) : World :=
  {| searchInput := searchInput w; suggestions := suggestions w; isLoading := isLoading w;
     now := now w; pending := pending w; inflight := delete id (inflight w);
     nextId := nextId w; log := log w |}.

(** ** [fetchSuggestions] *)

(** The arrow function from its first line to [await fetch(...)]; it runs
    when the debounced call fires. *)
Definition fetchSuggestions_call (input : string) : M unit :=
  emit (Invoked input) ;;
  let trimmedInput := JS.trim input in
  if (1 <? String.length trimmedInput)%nat then
    setIsLoading true ;;
    fetch ("/api/courses/search?query=" ++ JS.encodeURIComponent trimmedInput)
  else
    setSuggestions [].

(** The rest of the arrow function; it runs when the request settles.
    Between the two [await]s of the [try] block nothing is written, so
    one outcome stands for both. *)
Definition fetchSuggestions_resume (o : FetchOutcome) : M unit :=
  try_catch_finally
    (response <- await_fetch o ;;
     (if negb (response_ok (fst response))
      then throw (ApiRequestFailed (fst response))
      else ret tt) ;;
     data <- response_json (snd response) ;;
     setSuggestions data)
    (fun error =>
       console_error error ;;
       setSuggestions [])
    (setIsLoading false).

(** ** [handleSearch] *)

(** A string prop is truthy when it is present and not empty. *)
Definition truthy (o : option string) : bool :=
  match o with
  | Some s => negb (String.eqb s "")
  | None => false
  end.

(** [suggestion.split(" ").slice(0, 2).join(" ")] *)
Definition courseSuggestion (text : string) : string :=
  JS.join " " (JS.slice0 2 (JS.split " " text)).

(** [course && suggestion.startsWith(course) && routeType === "course"] *)
Definition isSameCourse (p : SearchBarProps) (text : string) : bool :=
  truthy (course p)
  && match course p with Some c => JS.startsWith text c | None => false end
  && match routeType p with Some RouteCourse => true | _ => false end.

(** [professor && suggestion === professor && routeType === "professor"] *)
Definition isSameProfessor (p : SearchBarProps) (text : string) : bool :=
  truthy (professor p)
  && match professor p with Some f => String.eqb text f | None => false end
  && match routeType p with Some RouteProfessor => true | _ => false end.

(** [suggestions.find((s) => s.suggestion === suggestion && s.type === "professor")] *)
Definition isProfessor (shown : list Suggestion) (text : string) : option Suggestion :=
  List.find (fun s => String.eqb (suggestion s) text && String.eqb (type s) "professor") shown.

(** The value of the variable [suggestion] after the block that splits
    [courseSuggestion] into [parts]. *)
Definition reassigned (text : string) : string :=
  let parts := JS.split " " (courseSuggestion text) in
  if (2 <=? length parts)%nat then
    let coursePrefix := nth 0 parts "" in
    let courseNumber := nth 1 parts "" in
    if (String.length courseNumber =? 4)%nat && negb (JS.Number_isNaN courseNumber)
    then coursePrefix ++ " " ++ courseNumber
    else text
  else text.

(** [shown] is the [suggestions] constant of the render the handler
    closes over: [setSuggestions([])] does not change what [find] sees. *)
Definition handleSearch (p : SearchBarProps) (shown : list Suggestion) (text : string) : M unit :=
  setSearchInput text ;;
  setSuggestions [] ;;
  (if negb (isSameCourse p text || isSameProfessor p text) && resetState p
   then emit ResetStateCalled
   else ret tt) ;;
  match isProfessor shown text with
  | Some _ => router_push ("/results?professor=" ++ JS.encodeURIComponent (reassigned text))
  | None => router_push ("/results?course=" ++ JS.encodeURIComponent (reassigned text))
  end.

(** [handleInputChange] *)
Definition handleInputChange (input : string) : M unit :=
  setSearchInput input ;;
  fun w => (setPending (Debounce.call quietWindow (now w) input (pending w)) w, inr tt).

(** The effect on [initialValue]. *)
Definition initialValueEffect (v : string) : M unit :=
  setSearchInput v ;;
  if String.eqb v "" then setSuggestions [] else ret tt.

(** The cleanup effect: [fetchSuggestions.cancel()]. *)
Definition unmount (w : World) : World := setPending (Debounce.cancel (pending w)) w.

(** ** The event loop *)

Inductive Event :=
| InputChange (input : string)               (* [onChange] of the input *)
| Tick (dt : Z)                              (* [dt] milliseconds pass *)
| FetchSettled (id : nat) (o : FetchOutcome) (* a request comes back *)
| ClickSuggestion (index : nat)              (* [onClick] of a list item *)
| PressEnter                                 (* [onKeyDown] with Enter *)
| ClickSearchIcon                            (* [onClick] of the icon *)
| InitialValueChanged (v : string).          (* the parent passes a new [initialValue] *)

(** Runs a handler; an error nobody caught is reported by the runtime. *)
Definition run_handler (m : M unit) (w : World) : World :=
  match m w with
  | (w', inr _) => w'
  | (w', inl e) => fst (emit (UnhandledRejection e) w')
  end.

(** A call [handleSearch(text)] from the render whose state is [w]. *)
Definition select (p : SearchBarProps) (text : string) (w : World) : World :=
  run_handler (handleSearch p (suggestions w) text) w.

(** [suggestions.length > 0 && handleSearch(suggestions[0].suggestion)] *)
Definition selectFirst (p : SearchBarProps) (w : World) : World :=
  match suggestions w with
  | s :: _ => select p (suggestion s) w
  | [] => w
  end.

Definition step (p : SearchBarProps) (ev : Event) (w : World) : World :=
  match ev with
  | InputChange input => run_handler (handleInputChange input) w
  | Tick dt =>
      let w' := setNow (now w + Z.max 0 dt) w in
      match Debounce.due (now w') (pending w') with
      | Some input => run_handler (fetchSuggestions_call input) (setPending None w')
      | None => w'
      end
  | FetchSettled id o =>
      match inflight w !! id with
      | Some _ => run_handler (fetchSuggestions_resume o) (settle id w)
      | None => w
      end
  | ClickSuggestion index =>
      (* the list is rendered only when [suggestions.length > 0 && !isLoading] *)
      if isLoading w then w
      else match nth_error (suggestions w) index with
           | Some s => select p (suggestion s) w
           | None => w
           end
  | PressEnter => selectFirst p w
  | ClickSearchIcon => selectFirst p w
  | InitialValueChanged v => run_handler (initialValueEffect v) w
  end.

Definition run (p : SearchBarProps) (evs : list Event) (w : World) : World :=
  fold_left (fun w ev => step p ev w) evs w.

(** The arguments of the calls of the debounced function, and the URLs
    requested, in order. *)
Definition invocations (l : list Effect) : list string :=
  flat_map (fun e => match e with Invoked input => [input] | _ => [] end) l.

Definition requests (l : list Effect) : list string :=
  flat_map (fun e => match e with HttpGet _ url => [url] | _ => [] end) l.

Definition pushes (l : list Effect) : list string :=
  flat_map (fun e => match e with RouterPush url => [url] | _ => [] end) l.

(** What a handler adds to the effect log when it runs in [w]. *)
Definition effects_of (m : M unit) (w : World) : list Effect :=
  drop (length (log w)) (log (run_handler m w)).

(** The suggestion list a settled request leaves in the store. *)
Definition delivered (o : FetchOutcome) : list Suggestion :=
  match o with
  | HttpResponse status (BodyJson data) => if response_ok status then data else []
  | _ => []
  end.

(** The error a settled request reports to the console, if any. *)
Definition failure (o : FetchOutcome) : option Error :=
  match o with
  | NetworkError => Some FetchFailed
  | HttpResponse status body =>
      if response_ok status then
        match body with
        | BodyJson _ => None
        | BodyMalformed => Some JsonSyntaxError
        end
      else Some (ApiRequestFailed status)
  end.

(** A burst of keystrokes: the first text, then pairs of the time since
    the previous keystroke and the new text. *)
Definition burst (first : string) (rest : list (Z * string)) : list Event :=
  InputChange first :: flat_map (fun gt => [Tick (fst gt); InputChange (snd gt)]) rest.

Definition lastText (first : string) (rest : list (Z * string)) : string :=
  List.last (map snd rest) first.

(** The request the component sends for a trimmed input. *)
Definition searchUrl (trimmedInput : string) : string :=
  "/api/courses/search?query=" ++ JS.encodeURIComponent trimmedInput.

(** [c] occurs in [s]. *)
Fixpoint contains (c : ascii) (s : string) : bool :=
  match s with
  | EmptyString => false
  | String d s' => Ascii.eqb d c || contains c s'
  end.

(** ** Inputs of the worked examples *)

Definition cse3320 : Suggestion :=
  {| suggestion := "CSE 3320 OPERATING SYSTEMS"; type := "course" |}.

Definition janeSmith : Suggestion :=
  {| suggestion := "Jane Smith"; type := "professor" |}.


(** The search bar on the results page of course [c], with a
    [resetState] callback. *)
Definition onCoursePage (c : string) : SearchBarProps :=
  {| initialValue := ""; resetState := true; course := Some c;
     professor := None; routeType := Some RouteCourse |}.

(** The search bar on the landing page. *)
Definition onHomePage : SearchBarProps :=
  {| initialValue := ""; resetState := false; course := None;
     professor := None; routeType := None |}.

(** The state after the user typed [typed], the quiet window passed and
    the service answered with [answer]. *)
Definition showing (p : SearchBarProps) (typed : string) (answer : list Suggestion) : World :=
  run p [InputChange typed; Tick quietWindow;
         FetchSettled 0 (HttpResponse 200 (BodyJson answer))] (mount p).

Definition cse1310 : Suggestion :=
  {| suggestion := "CSE 1310 INTRODUCTION TO COMPUTERS & PROGRAMMING"; type := "course" |}.

(** The user typed "cse 3", paused, corrected it to "cse 1" and paused
    again; neither request has come back. *)
Definition twoInFlight : World :=
  run onHomePage [InputChange "cse 3"; Tick quietWindow;
                  InputChange "cse 1"; Tick quietWindow] (mount onHomePage).

(** The user typed "cse 3", paused, and then emptied the input while
    the request was still out. *)
Definition clearedWhileLoading : World :=
  run onHomePage [InputChange "cse 3"; Tick quietWindow; InputChange ""] (mount onHomePage).

(** ** Auxiliary notions for the properties of the encoders *)

(** What [encodeURIComponent] writes for one code unit. *)
Definition encodeCodeUnit (c : ascii) : string :=
  if JS.isUriUnreserved c then String c EmptyString else JS.escapeCodeUnit c.

(** The characters that can occur in the output of
    [encodeURIComponent]: the unreserved ones and the percent sign. *)
Definition isUrlSafe (c : ascii) : bool :=
  JS.isUriUnreserved c || Ascii.eqb c "%".

(** All 256 code units of the model. *)
Definition allAscii : list ascii := map ascii_of_nat (seq 0 256).

(** The events other than a keystroke in the input. *)
Definition isKeystroke (ev : Event) : bool :=
  match ev with
  | InputChange _ => true
  | _ => false
  end.

(** The value of a hexadecimal digit as [encodeURIComponent] writes it. *)
Definition hexValue (c : ascii) : nat :=
  let n := nat_of_ascii c in if (n <? 58)%nat then (n - 48)%nat else (n - 55)%nat.

(** Reads back the first code unit of an encoded string, undoing the
    percent-escape and the UTF-8 encoding, and returns it with the rest
    of the string. *)
Definition decodeFirst (s : string) : option (ascii * string) :=
  match s with
  | EmptyString => None
  | String "%" (String x (String y r)) =>
      let octet := (16 * hexValue x + hexValue y)%nat in
      if (octet <? 128)%nat then Some (ascii_of_nat octet, r)
      else
        match r with
        | String "%" (String z (String t r')) =>
            Some (ascii_of_nat ((octet - 192) * 64 + (16 * hexValue z + hexValue t - 128)), r')
        | _ => None
        end
  | String c r => Some (c, r)
  end.

(** ** The identifier as the spec words it *)

(** The letters A-Z and a-z. *)
Definition isAsciiLetter (c : ascii) : bool :=
  let n := nat_of_ascii c in
  ((65 <=? n)%nat && (n <=? 90)%nat) || ((97 <=? n)%nat && (n <=? 122)%nat).

(** The spec's wording, for comparison with the pieces of [JS.split]: the
    whitespace-delimited tokens of a text, that is its maximal runs of
    characters that are not whitespace. *)
Fixpoint spec_tokens (s : string) : list string :=
  match s with
  | EmptyString => []
  | String c s' =>
      if JS.isWhiteSpace c then spec_tokens s'
      else
        match s' with
        | EmptyString => [String c EmptyString]
        | String d _ =>
            if JS.isWhiteSpace d then String c EmptyString :: spec_tokens s'
            else match spec_tokens s' with
                 | t :: ts => String c t :: ts
                 | [] => [String c EmptyString]
                 end
        end
  end.

(** The spec's wording, for comparison with [reassigned]: "<token1>
    <token2>" when the text has two whitespace-delimited tokens and the
    second is a four-digit number, the text itself otherwise. *)
Definition spec_identifier (text : string) : string :=
  match spec_tokens text with
  | token1 :: token2 :: _ =>
      if (String.length token2 =? 4)%nat && JS.allChars JS.isDecimalDigit token2
      then token1 ++ " " ++ token2
      else text
  | _ => text
  end.

(** Selecting [text] in [w] pushes the results URL of [identifier], for
    one of the two categories. *)
Definition navigatesTo (p : SearchBarProps) (w : World) (text identifier : string) : Prop :=
  exists param,
    (param = "professor" \/ param = "course") /\
    pushes (effects_of (handleSearch p (suggestions w) text) w)
    = ["/results?" ++ param ++ "=" ++ JS.encodeURIComponent identifier].

Definition cse3320Spaced : Suggestion :=
  {| suggestion := "CSE  3320 OPERATING SYSTEMS"; type := "course" |}.

Definition cse1e10 : Suggestion :=
  {| suggestion := "CSE 1e10 SEMINAR"; type := "course" |}.

(** * Properties *)

(** ** The built-ins on examples *)

Example trim_ex : JS.trim "  ab c  " = "ab c". Proof. reflexivity. Qed.
Example split_ex : JS.split " " "CSE  3320 X" = ["CSE"; ""; "3320"; "X"]. Proof. reflexivity. Qed.
Example split_empty : JS.split " " "" = [""]. Proof. reflexivity. Qed.
Example join_ex : JS.join " " ["CSE"; "3320"] = "CSE 3320". Proof. reflexivity. Qed.
Example nan_ex1 : JS.Number_isNaN "3320" = false. Proof. reflexivity. Qed.
Example nan_ex2 : JS.Number_isNaN "OPER" = true. Proof. reflexivity. Qed.
Example nan_ex3 : JS.Number_isNaN "1e10" = false. Proof. reflexivity. Qed.
Example nan_ex4 : JS.Number_isNaN "0x1F" = false. Proof. reflexivity. Qed.
Example nan_ex5 : JS.Number_isNaN "12.5" = false. Proof. reflexivity. Qed.
Example nan_ex6 : JS.Number_isNaN "12a4" = true. Proof. reflexivity. Qed.
Example nan_ex7 : JS.Number_isNaN "-0x1" = true. Proof. reflexivity. Qed.
Example enc_ex1 : JS.encodeURIComponent "Jane Smith" = "Jane%20Smith". Proof. reflexivity. Qed.
Example enc_ex2 : JS.encodeURIComponent "a&b/c?d" = "a%26b%2Fc%3Fd". Proof. reflexivity. Qed.

(** ** [split] and [join] *)

Section SplitJoin.
Variable sep : ascii.

Lemma split_not_nil (s : string) : JS.split sep s <> [].
Proof.
  destruct s as [|c s]; cbn; [discriminate|].
  destruct (Ascii.eqb c sep); [discriminate|].
  destruct (JS.split sep s); discriminate.
Qed.

Lemma split_pieces_free (s : string) :
  Forall (fun t => contains sep t = false) (JS.split sep s).
Proof.
  induction s as [|c s IH]; cbn.
  - repeat constructor.
  - destruct (Ascii.eqb c sep) eqn:E.
    + constructor; [reflexivity | exact IH].
    + destruct (JS.split sep s) as [|t ts].
      * repeat constructor. cbn. rewrite E. reflexivity.
      * inversion IH; subst. constructor; [|assumption].
        cbn. rewrite E. assumption.
Qed.

Lemma split_free (t : string) :
  contains sep t = false -> JS.split sep t = [t].
Proof.
  induction t as [|c t IH]; cbn; [reflexivity|].
  intros H. apply orb_false_iff in H as [E H].
  rewrite E, (IH H). reflexivity.
Qed.

Lemma split_app_sep (t s : string) :
  contains sep t = false ->
  JS.split sep (t ++ String sep s) = t :: JS.split sep s.
Proof.
  induction t as [|c t IH]; intros H.
  - change ("" ++ String sep s) with (String sep s). cbn.
    rewrite Ascii.eqb_refl. reflexivity.
  - change (String c t ++ String sep s) with (String c (t ++ String sep s)).
    cbn in *. apply orb_false_iff in H as [E H].
    rewrite E, (IH H). reflexivity.
Qed.

Lemma split_join (l : list string) :
  l <> [] ->
  Forall (fun t => contains sep t = false) l ->
  JS.split sep (JS.join (String sep EmptyString) l) = l.
Proof.
  induction l as [|t l IH]; [congruence|].
  intros _ Hfree. inversion Hfree as [|? ? Ht Hl]; subst.
  destruct l as [|u l].
  - cbn. apply split_free, Ht.
  - change (JS.join (String sep "") (t :: u :: l))
      with (t ++ String sep (JS.join (String sep "") (u :: l))).
    rewrite split_app_sep by assumption.
    f_equal. apply IH; [discriminate | assumption].
Qed.
End SplitJoin.

Lemma split_courseSuggestion (text : string) :
  JS.split " " (courseSuggestion text) = firstn 2 (JS.split " " text).
Proof.
  unfold courseSuggestion, JS.slice0.
  apply split_join.
  - pose proof (split_not_nil " " text).
    destruct (JS.split " " text) as [|a [|b l]]; cbn; congruence.
  - apply Forall_take, split_pieces_free.
Qed.

Lemma reassigned_tokens (text : string) :
  reassigned text =
    match JS.split " " text with
    | token1 :: token2 :: _ =>
        if (String.length token2 =? 4)%nat && negb (JS.Number_isNaN token2)
        then token1 ++ " " ++ token2
        else text
    | _ => text
    end.
Proof.
  unfold reassigned. rewrite split_courseSuggestion.
  destruct (JS.split " " text) as [|a [|b l]]; reflexivity.
Qed.

(** ** The navigation resolver *)

Lemma startsWith_spec (s search : string) :
  JS.startsWith s search = true <-> exists rest, s = search ++ rest.
Proof.
  unfold JS.startsWith. revert s.
  induction search as [|c search IH]; intros s.
  - split; [intros _; exists s; reflexivity | intros _; destruct s; reflexivity].
  - destruct s as [|d s]; cbn.
    + split; [discriminate | intros [rest H]; discriminate H].
    + destruct (ascii_dec c d) as [->|Hne].
      * rewrite IH. split; intros [rest H]; exists rest.
        -- rewrite H. reflexivity.
        -- change (String d search ++ rest) with (String d (search ++ rest)) in H.
           congruence.
      * split; [discriminate | intros [rest H]].
        change (String c search ++ rest) with (String c (search ++ rest)) in H.
        congruence.
Qed.

Lemma truthy_spec (o : option string) :
  truthy o = true <-> exists s, o = Some s /\ s <> "".
Proof.
  destruct o as [s|]; cbn.
  - rewrite negb_true_iff, String.eqb_neq. split.
    + intros H. exists s. auto.
    + intros [t [[= <-] H]]. exact H.
  - split; [discriminate | intros [s [H _]]; discriminate H].
Qed.

Lemma isSameCourse_spec (p : SearchBarProps) (text : string) :
  isSameCourse p text = true <->
  routeType p = Some RouteCourse /\
  exists c, course p = Some c /\ c <> "" /\ exists rest, text = c ++ rest.
Proof.
  unfold isSameCourse. rewrite !andb_true_iff, truthy_spec. split.
  - intros [[[c [Hc Hne]] Hpre] Hroute]. rewrite Hc in Hpre.
    apply startsWith_spec in Hpre. split.
    + destruct (routeType p) as [[]|]; congruence.
    + exists c. auto.
  - intros [Hroute [c [Hc [Hne Hpre]]]]. rewrite Hc, Hroute.
    apply startsWith_spec in Hpre. repeat split; eauto.
Qed.

Lemma isSameProfessor_spec (p : SearchBarProps) (text : string) :
  isSameProfessor p text = true <->
  routeType p = Some RouteProfessor /\
  exists f, professor p = Some f /\ f <> "" /\ text = f.
Proof.
  unfold isSameProfessor. rewrite !andb_true_iff, truthy_spec. split.
  - intros [[[f [Hf Hne]] Heq] Hroute]. rewrite Hf in Heq.
    apply String.eqb_eq in Heq. split.
    + destruct (routeType p) as [[]|]; congruence.
    + exists f. auto.
  - intros [Hroute [f [Hf [Hne Heq]]]]. rewrite Hf, Hroute.
    apply String.eqb_eq in Heq. repeat split; eauto.
Qed.

Lemma isProfessor_spec (shown : list Suggestion) (text : string) :
  (exists hit, isProfessor shown text = Some hit) <->
  exists s, In s shown /\ suggestion s = text /\ type s = "professor".
Proof.
  unfold isProfessor. split.
  - intros [hit H]. apply List.find_some in H as [Hin Hb].
    apply andb_true_iff in Hb as [H1 H2].
    apply String.eqb_eq in H1, H2. exists hit. auto.
  - intros [s [Hin [H1 H2]]].
    destruct (List.find _ shown) as [hit|] eqn:E; [eauto|].
    apply (List.find_none _ _ E) in Hin.
    rewrite H1, H2, !String.eqb_refl in Hin. discriminate Hin.
Qed.

(** What [handleSearch] leaves behind: the input shows the selected text,
    the list is empty, and the log grows by the optional [resetState]
    call and one router push. *)
Lemma handleSearch_run (p : SearchBarProps) (shown : list Suggestion) (text : string) (w : World) :
  handleSearch p shown text w =
  ({| searchInput := text; suggestions := []; isLoading := isLoading w;
      now := now w; pending := pending w; inflight := inflight w;
      nextId := nextId w;
      log := log w
             ++ (if negb (isSameCourse p text || isSameProfessor p text) && resetState p
                 then [ResetStateCalled] else [])
             ++ [RouterPush
                   ((match isProfessor shown text with
                     | Some _ => "/results?professor="
                     | None => "/results?course="
                     end) ++ JS.encodeURIComponent (reassigned text))] |},
   inr tt).
Proof.
  unfold handleSearch, bind, setSearchInput, setSuggestions, router_push, emit, ret.
  cbn.
  destruct (negb (isSameCourse p text || isSameProfessor p text) && resetState p);
    destruct (isProfessor shown text); cbn;
    rewrite <- ?app_assoc, ?app_nil_r; reflexivity.
Qed.

Lemma handleSearch_effects (p : SearchBarProps) (shown : list Suggestion) (text : string) (w : World) :
  effects_of (handleSearch p shown text) w =
  ((if negb (isSameCourse p text || isSameProfessor p text) && resetState p
    then [ResetStateCalled] else [])
   ++ [RouterPush
         ((match isProfessor shown text with
           | Some _ => "/results?professor="
           | None => "/results?course="
           end) ++ JS.encodeURIComponent (reassigned text))])%list.
Proof.
  unfold effects_of, run_handler. rewrite handleSearch_run. cbn.
  apply drop_app_length.
Qed.

Lemma handleSearch_pushes (p : SearchBarProps) (shown : list Suggestion) (text : string) (w : World) :
  pushes (effects_of (handleSearch p shown text) w) =
  [(match isProfessor shown text with
    | Some _ => "/results?professor="
    | None => "/results?course="
    end) ++ JS.encodeURIComponent (reassigned text)].
Proof.
  rewrite handleSearch_effects.
  destruct (negb (isSameCourse p text || isSameProfessor p text) && resetState p);
    reflexivity.
Qed.

(** C2, as the code has it.  When the caller supplied [resetState], a selection
    calls it if and only if neither sameness condition holds, where the
    selection is the same course when the route type is "course", the
    [course] prop is present and not the empty string, and the selected
    text starts with it; and it is the same professor when the route type
    is "professor", the [professor] prop is present and not the empty
    string, and the selected text equals it. *)
Theorem C2_resetState_condition
    (p : SearchBarProps) (text : string) (w : World) :
  resetState p = true ->
  In ResetStateCalled (effects_of (handleSearch p (suggestions w) text) w) <->
  ~ ((routeType p = Some RouteCourse /\
      exists c, course p = Some c /\ c <> "" /\ exists rest, text = c ++ rest)
     \/
     (routeType p = Some RouteProfessor /\
      exists f, professor p = Some f /\ f <> "" /\ text = f)).
Proof.
  intros Hreset.
  rewrite handleSearch_effects, Hreset, andb_true_r.
  rewrite <- isSameCourse_spec, <- isSameProfessor_spec, <- orb_true_iff.
  destruct (isSameCourse p text || isSameProfessor p text); cbn.
  - split; [intros [H|[]]; discriminate H | intros H; exfalso; apply H; reflexivity].
  - split; [intros _; discriminate | intros _; left; reflexivity].
Qed.

(** Selecting "CSE 3320 OPERATING SYSTEMS" on the page of course
    "CSE 3320" does not call [resetState]. *)
Lemma C2_same_course_keeps_state :
  ~ In ResetStateCalled
      (effects_of
         (handleSearch (onCoursePage "CSE 3320")
            (suggestions (showing (onCoursePage "CSE 3320") "cse 33" [cse3320]))
            "CSE 3320 OPERATING SYSTEMS")
         (showing (onCoursePage "CSE 3320") "cse 33" [cse3320])).
Proof.
  intros H.
  apply (C2_resetState_condition (onCoursePage "CSE 3320")
           "CSE 3320 OPERATING SYSTEMS"
           (showing (onCoursePage "CSE 3320") "cse 33" [cse3320])
           eq_refl) in H.
  apply H. left. split; [reflexivity|].
  exists "CSE 3320". split; [reflexivity|]. split; [discriminate|].
  exists " OPERATING SYSTEMS". reflexivity.
Defined.

(** C2, as the spec words it, fails for an empty [course] prop: the prop
    is non-null and the text starts with it, and [resetState] is called
    all the same, because the empty string is falsy. *)
Lemma C2_empty_course_prop_resets :
  ~ (In ResetStateCalled
       (effects_of
          (handleSearch (onCoursePage "")
             (suggestions (showing (onCoursePage "") "cse 33" [cse3320]))
             "CSE 3320 OPERATING SYSTEMS")
          (showing (onCoursePage "") "cse 33" [cse3320]))
     <->
     ~ ((routeType (onCoursePage "") = Some RouteCourse /\
         exists c, course (onCoursePage "") = Some c /\
                   exists rest, "CSE 3320 OPERATING SYSTEMS" = c ++ rest)
        \/
        (routeType (onCoursePage "") = Some RouteProfessor /\
         professor (onCoursePage "") = Some "CSE 3320 OPERATING SYSTEMS"))).
Proof.
  intros [Hcalled _]. apply Hcalled.
  - vm_compute. left. reflexivity.
  - left. split; [reflexivity|].
    exists "". split; [reflexivity|].
    exists "CSE 3320 OPERATING SYSTEMS". reflexivity.
Qed.

(** C6.  The category of a selection is looked up in the suggestion list
    of the current render: if the list has an entry with exactly the
    selected text and type "professor", the router is sent to
    /results?professor=<identifier>, otherwise to
    /results?course=<identifier>, the identifier URL-encoded. *)
Theorem C6_category_resolution
    (p : SearchBarProps) (text : string) (w : World) :
  ((exists s, In s (suggestions w) /\ suggestion s = text /\ type s = "professor") ->
   pushes (effects_of (handleSearch p (suggestions w) text) w) =
   ["/results?professor=" ++ JS.encodeURIComponent (reassigned text)])
  /\
  (~ (exists s, In s (suggestions w) /\ suggestion s = text /\ type s = "professor") ->
   pushes (effects_of (handleSearch p (suggestions w) text) w) =
   ["/results?course=" ++ JS.encodeURIComponent (reassigned text)]).
Proof.
  rewrite handleSearch_pushes, <- isProfessor_spec.
  destruct (isProfessor (suggestions w) text) as [hit|].
  - split; [reflexivity|]. intros H. exfalso. apply H. eauto.
  - split; [|reflexivity]. intros [hit H]. discriminate H.
Qed.

(** Selecting the professor "Jane Smith" navigates to
    /results?professor=Jane%20Smith. *)
Lemma C6_jane_smith :
  pushes (effects_of
            (handleSearch onHomePage
               (suggestions (showing onHomePage "jane" [janeSmith])) "Jane Smith")
            (showing onHomePage "jane" [janeSmith]))
  = ["/results?professor=Jane%20Smith"].
Proof.
  apply (proj1 (C6_category_resolution onHomePage "Jane Smith"
                  (showing onHomePage "jane" [janeSmith]))).
  exists janeSmith. split; [left; reflexivity|]. split; reflexivity.
Defined.



(** ** The fetch lifecycle *)

(** The part of [fetchSuggestions] that runs when a request settles never
    throws: it stores what was delivered, clears the loading flag and
    logs the failure, if there was one. *)
Lemma fetchSuggestions_resume_run (o : FetchOutcome) (w : World) :
  fetchSuggestions_resume o w =
  ({| searchInput := searchInput w; suggestions := delivered o; isLoading := false;
      now := now w; pending := pending w; inflight := inflight w;
      nextId := nextId w;
      log := log w ++ match failure o with
                      | Some e => [ConsoleError e]
                      | None => []
                      end |},
   inr tt).
Proof.
  unfold fetchSuggestions_resume, try_catch_finally.
  destruct o as [|status [data|]]; cbn.
  - reflexivity.
  - unfold bind, await_fetch, ret. cbn.
    destruct (response_ok status); cbn; rewrite ?app_nil_r; reflexivity.
  - unfold bind, await_fetch, ret. cbn.
    destruct (response_ok status); cbn; reflexivity.
Qed.

Lemma step_FetchSettled (p : SearchBarProps) (id : nat) (o : FetchOutcome) (w : World) :
  is_Some (inflight w !! id) ->
  step p (FetchSettled id o) w =
  {| searchInput := searchInput w; suggestions := delivered o; isLoading := false;
     now := now w; pending := pending w; inflight := delete id (inflight w);
     nextId := nextId w;
     log := log w ++ match failure o with
                     | Some e => [ConsoleError e]
                     | None => []
                     end |}.
Proof.
  intros [url Hid]. cbn. rewrite Hid.
  unfold run_handler. rewrite fetchSuggestions_resume_run. reflexivity.
Qed.

(** C7.  When a request that is still outstanding fails, by a network
    error or by a status outside 200-299, the suggestion list is cleared,
    the loading flag is false, the error goes to [console.error], nothing
    is thrown out of the handler, and the component is idle again: the
    request is no longer outstanding and the input and a waiting
    debounced call are as they were. *)
Theorem C7_fetch_failure
    (p : SearchBarProps) (w : World) (id : nat) (url : string) (o : FetchOutcome) :
  inflight w !! id = Some url ->
  (o = NetworkError \/
   exists status body, o = HttpResponse status body /\ response_ok status = false) ->
  suggestions (step p (FetchSettled id o) w) = [] /\
  isLoading (step p (FetchSettled id o) w) = false /\
  (exists e, log (step p (FetchSettled id o) w) = (log w ++ [ConsoleError e])%list) /\
  snd (fetchSuggestions_resume o (settle id w)) = inr tt /\
  inflight (step p (FetchSettled id o) w) = delete id (inflight w) /\
  pending (step p (FetchSettled id o) w) = pending w /\
  searchInput (step p (FetchSettled id o) w) = searchInput w.
Proof.
  intros Hid Hfail.
  rewrite step_FetchSettled by eauto.
  rewrite fetchSuggestions_resume_run. cbn.
  destruct Hfail as [->|[status [body [-> Hok]]]]; cbn.
  - repeat split; eauto.
  - rewrite Hok. destruct body; repeat split; eauto.
Qed.

Lemma C7_network_error_example :
  suggestions (step onHomePage (FetchSettled 1 NetworkError) twoInFlight) = [] /\
  isLoading (step onHomePage (FetchSettled 1 NetworkError) twoInFlight) = false /\
  (exists e, log (step onHomePage (FetchSettled 1 NetworkError) twoInFlight)
             = (log twoInFlight ++ [ConsoleError e])%list) /\
  snd (fetchSuggestions_resume NetworkError (settle 1 twoInFlight)) = inr tt /\
  inflight (step onHomePage (FetchSettled 1 NetworkError) twoInFlight)
  = delete 1%nat (inflight twoInFlight) /\
  pending (step onHomePage (FetchSettled 1 NetworkError) twoInFlight) = pending twoInFlight /\
  searchInput (step onHomePage (FetchSettled 1 NetworkError) twoInFlight)
  = searchInput twoInFlight.
Proof.
  apply (C7_fetch_failure onHomePage twoInFlight 1 (searchUrl "cse 1") NetworkError).
  - reflexivity.
  - left. reflexivity.
Defined.

(** C8, as the code has it.  When a request that is still outstanding comes back
    with a status in 200-299 and a body that does not parse, the
    rejection of [response.json()] is caught by the same [catch] as the
    other failures: the list is cleared, the loading flag is false, the
    error goes to [console.error] and nothing is thrown out of the
    handler. *)
Theorem C8_malformed_body_is_caught
    (p : SearchBarProps) (w : World) (id : nat) (url : string) (status : Z) :
  inflight w !! id = Some url ->
  response_ok status = true ->
  suggestions (step p (FetchSettled id (HttpResponse status BodyMalformed)) w) = [] /\
  isLoading (step p (FetchSettled id (HttpResponse status BodyMalformed)) w) = false /\
  log (step p (FetchSettled id (HttpResponse status BodyMalformed)) w)
  = (log w ++ [ConsoleError JsonSyntaxError])%list /\
  snd (fetchSuggestions_resume (HttpResponse status BodyMalformed) (settle id w)) = inr tt.
Proof.
  intros Hid Hok.
  rewrite step_FetchSettled by eauto.
  rewrite fetchSuggestions_resume_run. cbn. rewrite Hok.
  repeat split.
Qed.

Lemma C8_malformed_body_example :
  suggestions (step onHomePage (FetchSettled 0 (HttpResponse 200 BodyMalformed)) twoInFlight) = [] /\
  isLoading (step onHomePage (FetchSettled 0 (HttpResponse 200 BodyMalformed)) twoInFlight) = false /\
  log (step onHomePage (FetchSettled 0 (HttpResponse 200 BodyMalformed)) twoInFlight)
  = (log twoInFlight ++ [ConsoleError JsonSyntaxError])%list /\
  snd (fetchSuggestions_resume (HttpResponse 200 BodyMalformed) (settle 0 twoInFlight)) = inr tt.
Proof.
  apply (C8_malformed_body_is_caught onHomePage twoInFlight 0 (searchUrl "cse 3") 200).
  - reflexivity.
  - reflexivity.
Defined.

(** C8, as the spec words it, fails: no state, status and error are such
    that a successful status with an unparsable body makes the handler
    end in a rejection. *)
Lemma C8_no_unhandled_rejection :
  ~ exists (w : World) (status : Z) (e : Error),
      response_ok status = true /\
      snd (fetchSuggestions_resume (HttpResponse status BodyMalformed) w) = inl e.
Proof.
  intros [w [status [e [_ H]]]].
  rewrite fetchSuggestions_resume_run in H. discriminate H.
Qed.

(** C1, as the code has it.  Every response of an outstanding request is applied
    to the store when it arrives, whatever was requested or applied in
    between: when two requests are outstanding and the second one comes
    back first, the first one's response then replaces it, so the list
    is that of the request that settled last. *)
Theorem C1_last_settled_wins
    (p : SearchBarProps) (w : World) (a b : nat) (oa ob : FetchOutcome) :
  a <> b ->
  is_Some (inflight w !! a) ->
  is_Some (inflight w !! b) ->
  suggestions (step p (FetchSettled b ob) w) = delivered ob /\
  suggestions (step p (FetchSettled a oa) (step p (FetchSettled b ob) w)) = delivered oa /\
  isLoading (step p (FetchSettled a oa) (step p (FetchSettled b ob) w)) = false.
Proof.
  intros Hab Ha Hb.
  rewrite (step_FetchSettled p b ob w Hb).
  rewrite step_FetchSettled.
  - repeat split.
  - cbn. rewrite lookup_delete_ne by congruence. exact Ha.
Qed.

Lemma C1_last_settled_wins_example :
  suggestions (step onHomePage (FetchSettled 1 (HttpResponse 200 (BodyJson [cse1310]))) twoInFlight)
  = [cse1310] /\
  suggestions (step onHomePage (FetchSettled 0 (HttpResponse 200 (BodyJson [cse3320])))
                 (step onHomePage (FetchSettled 1 (HttpResponse 200 (BodyJson [cse1310]))) twoInFlight))
  = [cse3320] /\
  isLoading (step onHomePage (FetchSettled 0 (HttpResponse 200 (BodyJson [cse3320])))
               (step onHomePage (FetchSettled 1 (HttpResponse 200 (BodyJson [cse1310]))) twoInFlight))
  = false.
Proof.
  apply (C1_last_settled_wins onHomePage twoInFlight 0 1
           (HttpResponse 200 (BodyJson [cse3320]))
           (HttpResponse 200 (BodyJson [cse1310]))).
  - discriminate.
  - exists (searchUrl "cse 3"). reflexivity.
  - exists (searchUrl "cse 1"). reflexivity.
Defined.

(** The request for "cse 3" is outstanding when "cse 1" triggers a second
    one; the answer for "cse 1" is applied, then the answer for "cse 3"
    arrives and replaces it, although the input still reads "cse 1". *)
Lemma C1_stale_response_overwrites :
  inflight twoInFlight !! 0%nat = Some (searchUrl "cse 3") /\
  inflight twoInFlight !! 1%nat = Some (searchUrl "cse 1") /\
  searchInput twoInFlight = "cse 1" /\
  suggestions (run onHomePage
                 [FetchSettled 1 (HttpResponse 200 (BodyJson [cse1310]))] twoInFlight)
  = [cse1310] /\
  suggestions (run onHomePage
                 [FetchSettled 1 (HttpResponse 200 (BodyJson [cse1310]));
                  FetchSettled 0 (HttpResponse 200 (BodyJson [cse3320]))] twoInFlight)
  = [cse3320] /\
  [cse3320] <> [cse1310].
Proof.
  repeat split; try reflexivity. discriminate.
Qed.

(** C1, as the spec words it, fails: it is not the case that the response
    of the earlier of two outstanding requests, arriving after the later
    one's, leaves the list alone. *)
Lemma C1_stale_response_is_applied :
  ~ (forall (p : SearchBarProps) (evs : list Event) (a b : nat) (oa ob : FetchOutcome),
        (a < b)%nat ->
        is_Some (inflight (run p evs (mount p)) !! a) ->
        is_Some (inflight (run p evs (mount p)) !! b) ->
        suggestions (step p (FetchSettled a oa)
                       (step p (FetchSettled b ob) (run p evs (mount p))))
        = suggestions (step p (FetchSettled b ob) (run p evs (mount p)))).
Proof.
  intros H.
  specialize (H onHomePage
                [InputChange "cse 3"; Tick quietWindow; InputChange "cse 1"; Tick quietWindow]
                0%nat 1%nat
                (HttpResponse 200 (BodyJson [cse3320]))
                (HttpResponse 200 (BodyJson [cse1310]))).
  discriminate H.
  - lia.
  - exists (searchUrl "cse 3"). reflexivity.
  - exists (searchUrl "cse 1"). reflexivity.
Qed.

(** ** The loading flag *)

Lemma step_InputChange (p : SearchBarProps) (input : string) (w : World) :
  step p (InputChange input) w =
  {| searchInput := input; suggestions := suggestions w; isLoading := isLoading w;
     now := now w; pending := Some (input, now w + quietWindow);
     inflight := inflight w; nextId := nextId w; log := log w |}.
Proof. reflexivity. Qed.

Lemma fetchSuggestions_call_run (input : string) (w : World) :
  fetchSuggestions_call input w =
  (if (1 <? String.length (JS.trim input))%nat then
     {| searchInput := searchInput w; suggestions := suggestions w; isLoading := true;
        now := now w; pending := pending w;
        inflight := <[nextId w := searchUrl (JS.trim input)]> (inflight w);
        nextId := S (nextId w);
        log := log w ++ [Invoked input; HttpGet (nextId w) (searchUrl (JS.trim input))] |}
   else
     {| searchInput := searchInput w; suggestions := []; isLoading := isLoading w;
        now := now w; pending := pending w; inflight := inflight w;
        nextId := nextId w; log := log w ++ [Invoked input] |},
   inr tt).
Proof.
  unfold fetchSuggestions_call, searchUrl.
  destruct (1 <? String.length (JS.trim input))%nat;
    unfold bind, emit, setIsLoading, setSuggestions, fetch; cbn;
    rewrite <- ?app_assoc; reflexivity.
Qed.

(** A tick that does not reach the firing time only moves the clock. *)
Lemma step_Tick_wait (p : SearchBarProps) (dt : Z) (w : World) :
  Debounce.due (now w + Z.max 0 dt) (pending w) = None ->
  step p (Tick dt) w = setNow (now w + Z.max 0 dt) w.
Proof. intros H. cbn. rewrite H. reflexivity. Qed.

(** A tick that reaches it calls the debounced function. *)
Lemma step_Tick_fire (p : SearchBarProps) (dt : Z) (w : World) (input : string) :
  Debounce.due (now w + Z.max 0 dt) (pending w) = Some input ->
  step p (Tick dt) w =
  fst (fetchSuggestions_call input (setPending None (setNow (now w + Z.max 0 dt) w))).
Proof.
  intros H. cbn [step]. cbn [now setNow pending]. rewrite H.
  unfold run_handler. rewrite fetchSuggestions_call_run. reflexivity.
Qed.

Lemma select_run (p : SearchBarProps) (text : string) (w : World) :
  select p text w = fst (handleSearch p (suggestions w) text w).
Proof. unfold select, run_handler. rewrite handleSearch_run. reflexivity. Qed.

(** While the flag is set, the request issued last is outstanding. *)
Lemma loading_invariant_step (p : SearchBarProps) (ev : Event) (w : World) :
  (isLoading w = true ->
   (0 < nextId w)%nat /\ is_Some (inflight w !! pred (nextId w))) ->
  isLoading (step p ev w) = true ->
  (0 < nextId (step p ev w))%nat /\
  is_Some (inflight (step p ev w) !! pred (nextId (step p ev w))).
Proof.
  intros Inv.
  destruct ev as [input|dt|id o|index| | |v].
  - rewrite step_InputChange. exact Inv.
  - destruct (Debounce.due (now w + Z.max 0 dt) (pending w)) as [input|] eqn:E.
    + rewrite (step_Tick_fire p dt w input E), fetchSuggestions_call_run.
      destruct (1 <? String.length (JS.trim input))%nat; cbn.
      * intros _. split; [lia|]. rewrite lookup_insert_eq. eauto.
      * exact Inv.
    + rewrite (step_Tick_wait p dt w E). exact Inv.
  - destruct (inflight w !! id) as [url|] eqn:E.
    + rewrite step_FetchSettled by eauto. cbn. discriminate.
    + cbn. rewrite E. exact Inv.
  - cbn. destruct (isLoading w) eqn:L; [rewrite L; exact Inv|].
    destruct (nth_error (suggestions w) index) as [s|]; [|rewrite L; exact Inv].
    rewrite select_run, handleSearch_run. cbn. rewrite L. discriminate.
  - cbn. unfold selectFirst. destruct (suggestions w) as [|s l] eqn:S; [exact Inv|].
    rewrite select_run, handleSearch_run. exact Inv.
  - cbn. unfold selectFirst. destruct (suggestions w) as [|s l] eqn:S; [exact Inv|].
    rewrite select_run, handleSearch_run. exact Inv.
  - cbn. unfold run_handler, initialValueEffect, bind, setSearchInput, setSuggestions, ret.
    destruct (String.eqb v ""); exact Inv.
Qed.

Lemma loading_invariant_run (p : SearchBarProps) (evs : list Event) (w : World) :
  (isLoading w = true ->
   (0 < nextId w)%nat /\ is_Some (inflight w !! pred (nextId w))) ->
  isLoading (run p evs w) = true ->
  (0 < nextId (run p evs w))%nat /\
  is_Some (inflight (run p evs w) !! pred (nextId (run p evs w))).
Proof.
  revert w. induction evs as [|ev evs IH]; intros w Inv; [exact Inv|].
  cbn. apply IH. apply loading_invariant_step. exact Inv.
Qed.

(** C9, as the code has it.  In every state the component can reach, the
    loading flag is set only while a request is outstanding, namely the
    one issued last. *)
Theorem C9_loading_needs_outstanding_fetch
    (p : SearchBarProps) (evs : list Event) :
  isLoading (run p evs (mount p)) = true ->
  (0 < nextId (run p evs (mount p)))%nat /\
  is_Some (inflight (run p evs (mount p)) !! pred (nextId (run p evs (mount p)))).
Proof.
  apply loading_invariant_run. cbn. discriminate.
Qed.

Lemma C9_loading_example :
  (0 < nextId twoInFlight)%nat /\
  is_Some (inflight twoInFlight !! pred (nextId twoInFlight)).
Proof.
  apply (C9_loading_needs_outstanding_fetch onHomePage
           [InputChange "cse 3"; Tick quietWindow; InputChange "cse 1"; Tick quietWindow]).
  reflexivity.
Defined.

(** C9, as the spec words it, fails: after "cse 3" was sent off and the
    input was emptied, the input is empty and the flag is still set; so
    the flag is not false whenever the input is too short to trigger a
    query. *)
Lemma C9_loading_with_empty_input :
  searchInput clearedWhileLoading = "" /\
  isLoading clearedWhileLoading = true /\
  ~ (forall (p : SearchBarProps) (evs : list Event),
        (String.length (JS.trim (searchInput (run p evs (mount p)))) <= 1)%nat ->
        isLoading (run p evs (mount p)) = false).
Proof.
  split; [reflexivity|]. split; [reflexivity|].
  intros H.
  specialize (H onHomePage [InputChange "cse 3"; Tick quietWindow; InputChange ""]).
  discriminate H. vm_compute. lia.
Qed.

(** ** The debounce *)

Lemma invocations_app (l k : list Effect) :
  invocations (l ++ k) = (invocations l ++ invocations k)%list.
Proof. apply flat_map_app. Qed.

Lemma requests_app (l k : list Effect) :
  requests (l ++ k) = (requests l ++ requests k)%list.
Proof. apply flat_map_app. Qed.

(** After a keystroke, a tick shorter than the quiet window changes the
    clock only. *)
Lemma step_Tick_after_keystroke_wait
    (p : SearchBarProps) (input : string) (dt : Z) (w : World) :
  dt < quietWindow ->
  step p (Tick dt) (step p (InputChange input) w) =
  setNow (now w + Z.max 0 dt) (step p (InputChange input) w).
Proof.
  intros Hdt. rewrite step_Tick_wait; rewrite step_InputChange; cbn.
  - reflexivity.
  - unfold quietWindow in *.
    destruct (Z.leb_spec (now w + 300) (now w + Z.max 0 dt)); [lia|reflexivity].
Qed.

(** After a keystroke, a tick of the quiet window or more calls the
    debounced function with that keystroke's text. *)
Lemma step_Tick_after_keystroke_fire
    (p : SearchBarProps) (input : string) (dt : Z) (w : World) :
  quietWindow <= dt ->
  step p (Tick dt) (step p (InputChange input) w) =
  fst (fetchSuggestions_call input
         (setPending None (setNow (now w + Z.max 0 dt) (step p (InputChange input) w)))).
Proof.
  intros Hdt. apply (step_Tick_fire p dt (step p (InputChange input) w) input).
  rewrite step_InputChange. cbn.
  unfold quietWindow in *.
  destruct (Z.leb_spec (now w + 300) (now w + Z.max 0 dt)); [reflexivity|lia].
Qed.

(** C5, as the code has it.  For an input whose trimmed length is at most 1 no
    request is sent, and the suggestion list is cleared when the
    debounced call fires, that is once the quiet window has passed after
    the keystroke: the keystroke itself, and any shorter wait after it,
    leave the list and the log as they were. *)
Theorem C5_short_input_cleared_after_window
    (p : SearchBarProps) (w : World) (input : string) (early late : Z) :
  (String.length (JS.trim input) <= 1)%nat ->
  early < quietWindow ->
  quietWindow <= late ->
  (suggestions (step p (InputChange input) w) = suggestions w /\
   log (step p (InputChange input) w) = log w) /\
  (suggestions (step p (Tick early) (step p (InputChange input) w)) = suggestions w /\
   log (step p (Tick early) (step p (InputChange input) w)) = log w) /\
  (suggestions (step p (Tick late) (step p (InputChange input) w)) = [] /\
   requests (log (step p (Tick late) (step p (InputChange input) w))) = requests (log w) /\
   isLoading (step p (Tick late) (step p (InputChange input) w)) = isLoading w).
Proof.
  intros Hshort Hearly Hlate.
  split; [split; reflexivity|].
  split.
  - rewrite step_Tick_after_keystroke_wait by assumption. split; reflexivity.
  - rewrite step_Tick_after_keystroke_fire by assumption.
    rewrite fetchSuggestions_call_run.
    destruct (Nat.ltb_spec 1 (String.length (JS.trim input))); [lia|].
    cbn. rewrite requests_app. cbn. rewrite app_nil_r. repeat split.
Qed.

Lemma C5_short_input_example :
  (suggestions (step onHomePage (InputChange "c") (showing onHomePage "cse 3" [cse3320]))
   = [cse3320] /\
   log (step onHomePage (InputChange "c") (showing onHomePage "cse 3" [cse3320]))
   = log (showing onHomePage "cse 3" [cse3320])) /\
  (suggestions (step onHomePage (Tick 299)
                  (step onHomePage (InputChange "c") (showing onHomePage "cse 3" [cse3320])))
   = [cse3320] /\
   log (step onHomePage (Tick 299)
          (step onHomePage (InputChange "c") (showing onHomePage "cse 3" [cse3320])))
   = log (showing onHomePage "cse 3" [cse3320])) /\
  (suggestions (step onHomePage (Tick 300)
                  (step onHomePage (InputChange "c") (showing onHomePage "cse 3" [cse3320])))
   = [] /\
   requests (log (step onHomePage (Tick 300)
                    (step onHomePage (InputChange "c") (showing onHomePage "cse 3" [cse3320]))))
   = requests (log (showing onHomePage "cse 3" [cse3320])) /\
   isLoading (step onHomePage (Tick 300)
                (step onHomePage (InputChange "c") (showing onHomePage "cse 3" [cse3320])))
   = isLoading (showing onHomePage "cse 3" [cse3320])).
Proof.
  apply (C5_short_input_cleared_after_window onHomePage
           (showing onHomePage "cse 3" [cse3320]) "c" 299 300).
  - vm_compute. lia.
  - reflexivity.
  - discriminate.
Defined.

(** C5, as the spec words it, fails: with "CSE 3320 OPERATING SYSTEMS" on
    display, the keystroke that leaves the one-character input "c" does
    not clear the list; it is still there right after the keystroke. *)
Lemma C5_not_cleared_at_keystroke :
  suggestions (step onHomePage (InputChange "c") (showing onHomePage "cse 3" [cse3320]))
  = [cse3320] /\
  ~ (forall (p : SearchBarProps) (evs : list Event) (input : string),
        (String.length (JS.trim input) <= 1)%nat ->
        suggestions (step p (InputChange input) (run p evs (mount p))) = []).
Proof.
  split; [reflexivity|].
  intros H.
  specialize (H onHomePage
                [InputChange "cse 3"; Tick quietWindow;
                 FetchSettled 0 (HttpResponse 200 (BodyJson [cse3320]))] "c").
  discriminate H. vm_compute. lia.
Qed.

Lemma last_cons {A} (l : list A) :
  forall a d : A, List.last (a :: l) d = List.last l a.
Proof.
  induction l as [|x l IH]; intros a d; [reflexivity|].
  change (List.last (a :: x :: l) d) with (List.last (x :: l) d).
  rewrite (IH x d), (IH x a). reflexivity.
Qed.

(** The state at the end of a burst: nothing was called or logged, the
    input shows the last text, and the debounced call waits with the
    last text for the quiet window after the last keystroke. *)
Lemma burst_run (p : SearchBarProps) (rest : list (Z * string)) :
  forall (first : string) (w : World),
    Forall (fun gt => fst gt < quietWindow) rest ->
    pending (run p (burst first rest) w)
    = Some (lastText first rest, now (run p (burst first rest) w) + quietWindow) /\
    log (run p (burst first rest) w) = log w /\
    searchInput (run p (burst first rest) w) = lastText first rest /\
    suggestions (run p (burst first rest) w) = suggestions w /\
    isLoading (run p (burst first rest) w) = isLoading w /\
    inflight (run p (burst first rest) w) = inflight w /\
    nextId (run p (burst first rest) w) = nextId w.
Proof.
  induction rest as [|[gap text] rest IH]; intros first w Hgaps.
  - cbn. repeat split.
  - inversion Hgaps as [|? ? Hgap Hrest]; subst. cbn in Hgap.
    assert (Hrun : run p (burst first ((gap, text) :: rest)) w
                   = run p (burst text rest)
                       (step p (Tick gap) (step p (InputChange first) w)))
      by reflexivity.
    assert (Hlast : lastText first ((gap, text) :: rest) = lastText text rest).
    { unfold lastText. cbn [map snd]. apply last_cons. }
    rewrite Hrun, Hlast.
    destruct (IH text (step p (Tick gap) (step p (InputChange first) w)) Hrest)
      as (H1 & H2 & H3 & H4 & H5 & H6 & H7).
    rewrite H1, H2, H3, H4, H5, H6, H7.
    rewrite step_Tick_after_keystroke_wait by assumption.
    repeat split.
Qed.

(** C4.  For a burst of keystrokes in which each follows the previous one
    by less than the 300 ms quiet window, the debounced query function
    is not called during the burst and is called exactly once when the
    window has passed after the last keystroke, with the last text of the
    burst; it then sends exactly one request, for the trimmed last text,
    when that is longer than one character, and none otherwise. *)
Theorem C4_debounce_collapse
    (p : SearchBarProps) (w : World) (first : string) (rest : list (Z * string)) (dt : Z) :
  Forall (fun gt => fst gt < quietWindow) rest ->
  quietWindow <= dt ->
  invocations (log (run p (burst first rest) w)) = invocations (log w) /\
  invocations (log (step p (Tick dt) (run p (burst first rest) w)))
  = (invocations (log w) ++ [lastText first rest])%list /\
  requests (log (step p (Tick dt) (run p (burst first rest) w)))
  = (requests (log w)
     ++ if (1 <? String.length (JS.trim (lastText first rest)))%nat
        then [searchUrl (JS.trim (lastText first rest))]
        else [])%list.
Proof.
  intros Hgaps Hdt.
  destruct (burst_run p rest first w Hgaps) as (Hpending & Hlog & _).
  split; [rewrite Hlog; reflexivity|].
  rewrite (step_Tick_fire p dt _ (lastText first rest)).
  - rewrite fetchSuggestions_call_run.
    destruct (1 <? String.length (JS.trim (lastText first rest)))%nat;
      cbn [fst log setPending setNow];
      rewrite Hlog, invocations_app, requests_app; cbn;
      rewrite ?app_nil_r; split; reflexivity.
  - rewrite Hpending. unfold Debounce.due, quietWindow in *.
    destruct (Z.leb_spec (now (run p (burst first rest) w) + 300)
                (now (run p (burst first rest) w) + Z.max 0 dt)); [reflexivity|lia].
Qed.

Lemma C4_burst_example :
  invocations (log (run onHomePage
                      (burst "c" [(120, "cs"); (90, "cse"); (299, "cse "); (40, "cse 3")])
                      (mount onHomePage)))
  = [] /\
  invocations (log (step onHomePage (Tick 300)
                      (run onHomePage
                         (burst "c" [(120, "cs"); (90, "cse"); (299, "cse "); (40, "cse 3")])
                         (mount onHomePage))))
  = ["cse 3"] /\
  requests (log (step onHomePage (Tick 300)
                   (run onHomePage
                      (burst "c" [(120, "cs"); (90, "cse"); (299, "cse "); (40, "cse 3")])
                      (mount onHomePage))))
  = ["/api/courses/search?query=cse%203"].
Proof.
  apply (C4_debounce_collapse onHomePage (mount onHomePage) "c"
           [(120, "cs"); (90, "cse"); (299, "cse "); (40, "cse 3")] 300).
  - repeat constructor.
  - discriminate.
Defined.

(** ** Teardown *)

(** After the cleanup effect a call that was waiting never fires: a tick
    of any length only moves the clock. *)
Lemma unmount_drops_waiting_call (p : SearchBarProps) (dt : Z) (w : World) :
  step p (Tick dt) (unmount w) = setNow (now w + Z.max 0 dt) (unmount w).
Proof. apply (step_Tick_wait p dt (unmount w)). reflexivity. Qed.

(** * Further properties of the component *)

(** ** Strings *)

Lemma append_assoc (a b c : string) : (a ++ b) ++ c = a ++ (b ++ c).
Proof.
  induction a as [|x a IH]; [reflexivity|].
  change (String x ((a ++ b) ++ c) = String x (a ++ (b ++ c))).
  rewrite IH. reflexivity.
Qed.

Lemma append_nil_r (a : string) : a ++ "" = a.
Proof.
  induction a as [|x a IH]; [reflexivity|].
  change (String x (a ++ "") = String x a). rewrite IH. reflexivity.
Qed.

Lemma contains_append (c : ascii) (a b : string) :
  contains c (a ++ b) = contains c a || contains c b.
Proof.
  induction a as [|x a IH]; [reflexivity|].
  change (contains c (String x (a ++ b)) = contains c (String x a) || contains c b).
  cbn. rewrite IH, orb_assoc. reflexivity.
Qed.

Lemma allChars_contains (P : ascii -> bool) (c : ascii) (s : string) :
  JS.allChars P s = true -> contains c s = true -> P c = true.
Proof.
  induction s as [|x s IH]; cbn; [discriminate|].
  intros Hall Hc. apply andb_true_iff in Hall as [Hx Hs].
  apply orb_true_iff in Hc as [Hc|Hc]; [|auto].
  apply Ascii.eqb_eq in Hc. subst. exact Hx.
Qed.

(** [join] undoes [split]. *)
Lemma join_split (sep : ascii) (s : string) :
  JS.join (String sep "") (JS.split sep s) = s.
Proof.
  induction s as [|c s IH]; [reflexivity|].
  cbn [JS.split]. destruct (Ascii.eqb_spec c sep) as [->|Hne].
  - pose proof (split_not_nil sep s) as Hnil.
    destruct (JS.split sep s) as [|t ts] eqn:E; [congruence|].
    change (JS.join (String sep "") ("" :: t :: ts))
      with ("" ++ String sep "" ++ JS.join (String sep "") (t :: ts)).
    rewrite IH. reflexivity.
  - pose proof (split_not_nil sep s) as Hnil.
    destruct (JS.split sep s) as [|t ts] eqn:E; [congruence|].
    destruct ts as [|u ts].
    + cbn in IH. cbn. rewrite IH. reflexivity.
    + change (JS.join (String sep "") (String c t :: u :: ts))
        with (String c (t ++ String sep "" ++ JS.join (String sep "") (u :: ts))).
      change (JS.join (String sep "") (t :: u :: ts))
        with (t ++ String sep "" ++ JS.join (String sep "") (u :: ts)) in IH.
      rewrite IH. reflexivity.
Qed.

(** ** The identifier *)

(** A text with at least two pieces starts with the first two, joined by
    a space. *)
Lemma two_pieces_prefix (text token1 token2 : string) (others : list string) :
  JS.split " " text = token1 :: token2 :: others ->
  exists rest, text = (token1 ++ " " ++ token2) ++ rest.
Proof.
  intros Hsplit. pose proof (join_split " " text) as Hjoin.
  rewrite Hsplit in Hjoin. destruct others as [|u others].
  - exists "". rewrite append_nil_r. symmetry. exact Hjoin.
  - exists (" " ++ JS.join " " (u :: others)).
    rewrite !append_assoc. symmetry. exact Hjoin.
Qed.

Lemma two_pieces_split (token1 token2 : string) :
  contains " " token1 = false ->
  contains " " token2 = false ->
  JS.split " " (token1 ++ " " ++ token2) = [token1; token2].
Proof.
  intros H1 H2.
  change (token1 ++ " " ++ token2) with (token1 ++ String " " token2).
  rewrite split_app_sep by assumption.
  rewrite split_free by assumption. reflexivity.
Qed.

Lemma reassigned_prefix (text : string) :
  exists rest, text = reassigned text ++ rest.
Proof.
  rewrite reassigned_tokens.
  destruct (JS.split " " text) as [|token1 [|token2 others]] eqn:Hsplit;
    try (exists ""; rewrite append_nil_r; reflexivity).
  destruct ((String.length token2 =? 4)%nat && negb (JS.Number_isNaN token2)).
  - exact (two_pieces_prefix text token1 token2 others Hsplit).
  - exists "". rewrite append_nil_r. reflexivity.
Qed.

Lemma reassigned_not_empty (text : string) :
  text <> "" -> reassigned text <> "".
Proof.
  intros Hne. rewrite reassigned_tokens.
  destruct (JS.split " " text) as [|token1 [|token2 others]]; try exact Hne.
  destruct ((String.length token2 =? 4)%nat && negb (JS.Number_isNaN token2));
    [|exact Hne].
  destruct token1; discriminate.
Qed.

(** *** Four-digit course numbers *)

Lemma decimalDigit_cases (c : ascii) :
  JS.isDecimalDigit c = true ->
  In c ["0"; "1"; "2"; "3"; "4"; "5"; "6"; "7"; "8"; "9"]%char.
Proof.
  destruct c as [[] [] [] [] [] [] [] []]; intros H;
    try discriminate H; cbn; tauto.
Qed.

Lemma spanDigits_all (d : string) :
  JS.allChars JS.isDecimalDigit d = true -> JS.spanDigits d = (d, "").
Proof.
  induction d as [|c d IH]; [reflexivity|].
  cbn [JS.allChars JS.spanDigits]. intros H.
  apply andb_true_iff in H as [Hc Hd]. rewrite Hc, (IH Hd). reflexivity.
Qed.

Lemma digits_no_space (d : string) :
  JS.allChars JS.isDecimalDigit d = true -> contains " " d = false.
Proof.
  induction d as [|c d IH]; [reflexivity|].
  cbn [JS.allChars contains]. intros H.
  apply andb_true_iff in H as [Hc Hd]. rewrite (IH Hd), orb_false_r.
  apply decimalDigit_cases in Hc. cbn in Hc.
  repeat (destruct Hc as [<-|Hc]; [reflexivity|]). destruct Hc.
Qed.

Lemma trimEnd_digits (d : string) :
  JS.allChars JS.isDecimalDigit d = true -> JS.trimEnd d = d.
Proof.
  induction d as [|c d IH]; [reflexivity|].
  cbn [JS.allChars JS.trimEnd]. intros H.
  apply andb_true_iff in H as [Hc Hd]. rewrite (IH Hd).
  destruct d; [|reflexivity].
  apply decimalDigit_cases in Hc. cbn in Hc.
  repeat (destruct Hc as [<-|Hc]; [reflexivity|]). destruct Hc.
Qed.

Lemma trim_digits (d : string) :
  JS.allChars JS.isDecimalDigit d = true -> JS.trim d = d.
Proof.
  intros H. unfold JS.trim.
  assert (Hstart : JS.trimStart d = d).
  { destruct d as [|c d]; [reflexivity|].
    cbn [JS.allChars] in H. apply andb_true_iff in H as [Hc _].
    apply decimalDigit_cases in Hc. cbn in Hc.
    repeat (destruct Hc as [<-|Hc]; [reflexivity|]). destruct Hc. }
  rewrite Hstart. apply trimEnd_digits, H.
Qed.

(** A non-empty string of decimal digits is a [StrNumericLiteral]. *)
Lemma digits_numeric_literal (d : string) :
  d <> "" ->
  JS.allChars JS.isDecimalDigit d = true ->
  JS.isStrNumericLiteral d = true.
Proof.
  intros Hne Hall.
  assert (Hdec : JS.isStrUnsignedDecimalLiteral d = true).
  { unfold JS.isStrUnsignedDecimalLiteral. rewrite (spanDigits_all d Hall).
    destruct d as [|c d]; [congruence|].
    cbn [JS.allChars] in Hall. apply andb_true_iff in Hall as [Hc _].
    apply decimalDigit_cases in Hc. cbn in Hc.
    repeat (destruct Hc as [<-|Hc]; [reflexivity|]). destruct Hc. }
  destruct d as [|c1 d]; [congruence|].
  pose proof Hall as Hall'.
  cbn [JS.allChars] in Hall'. apply andb_true_iff in Hall' as [Hc1 Hd].
  apply decimalDigit_cases in Hc1. cbn in Hc1.
  destruct d as [|c2 d].
  - repeat (destruct Hc1 as [<-|Hc1]; [reflexivity|]). destruct Hc1.
  - cbn [JS.allChars] in Hd. apply andb_true_iff in Hd as [Hc2 _].
    apply decimalDigit_cases in Hc2. cbn in Hc2.
    repeat (destruct Hc1 as [<-|Hc1];
            [repeat (destruct Hc2 as [<-|Hc2]; [exact Hdec|]); destruct Hc2|]).
    destruct Hc1.
Qed.

Lemma digits_not_NaN (d : string) :
  JS.allChars JS.isDecimalDigit d = true -> JS.Number_isNaN d = false.
Proof.
  intros Hall. unfold JS.Number_isNaN. rewrite (trim_digits d Hall).
  destruct d as [|c r]; [reflexivity|].
  rewrite digits_numeric_literal; [reflexivity|discriminate|exact Hall].
Qed.

(** ** [encodeURIComponent] *)

Lemma encodeURIComponent_cons (c : ascii) (s : string) :
  JS.encodeURIComponent (String c s) = encodeCodeUnit c ++ JS.encodeURIComponent s.
Proof. reflexivity. Qed.

Lemma allAscii_complete (c : ascii) : In c allAscii.
Proof.
  unfold allAscii. rewrite <- (ascii_nat_embedding c).
  apply in_map, in_seq. pose proof (nat_ascii_bounded c). lia.
Qed.

Lemma encodeCodeUnit_safe (c : ascii) :
  JS.allChars isUrlSafe (encodeCodeUnit c) = true.
Proof.
  assert (H : forallb (fun c => JS.allChars isUrlSafe (encodeCodeUnit c)) allAscii = true)
    by (vm_compute; reflexivity).
  rewrite forallb_forall in H. apply H, allAscii_complete.
Qed.

(** The output of [encodeURIComponent] consists of unreserved characters
    and percent signs. *)
Lemma encodeURIComponent_safe (s : string) (c : ascii) :
  contains c (JS.encodeURIComponent s) = true -> isUrlSafe c = true.
Proof.
  induction s as [|x s IH]; [discriminate|].
  rewrite encodeURIComponent_cons, contains_append, orb_true_iff.
  intros [H|H]; [|exact (IH H)].
  exact (allChars_contains isUrlSafe c _ (encodeCodeUnit_safe x) H).
Qed.

(** Reading back the first code unit of an encoding gives the code unit
    that was encoded and what followed it. *)
Lemma decodeFirst_encode (c : ascii) (rest : string) :
  decodeFirst (encodeCodeUnit c ++ rest) = Some (c, rest).
Proof.
  destruct c as [[] [] [] [] [] [] [] []]; reflexivity.
Qed.

(** [encodeURIComponent] is injective. *)
Lemma encodeURIComponent_inj (s1 s2 : string) :
  JS.encodeURIComponent s1 = JS.encodeURIComponent s2 -> s1 = s2.
Proof.
  revert s2. induction s1 as [|c1 s1 IH]; intros [|c2 s2] H.
  - reflexivity.
  - apply (f_equal decodeFirst) in H.
    rewrite encodeURIComponent_cons, decodeFirst_encode in H. discriminate H.
  - apply (f_equal decodeFirst) in H.
    rewrite encodeURIComponent_cons, decodeFirst_encode in H. discriminate H.
  - apply (f_equal decodeFirst) in H.
    rewrite !encodeURIComponent_cons, !decodeFirst_encode in H.
    injection H as -> H. f_equal. apply IH, H.
Qed.

(** ** What a step adds to the log *)

Lemma run_snoc (p : SearchBarProps) (evs : list Event) (ev : Event) (w : World) :
  run p (evs ++ [ev]) w = step p ev (run p evs w).
Proof. unfold run. rewrite fold_left_app. reflexivity. Qed.

Lemma pushes_app (l k : list Effect) :
  pushes (l ++ k) = (pushes l ++ pushes k)%list.
Proof. apply flat_map_app. Qed.

Lemma select_log (p : SearchBarProps) (text : string) (w : World) :
  exists url,
    log (select p text w) = (log w ++ [RouterPush url])%list \/
    log (select p text w) = (log w ++ [ResetStateCalled; RouterPush url])%list.
Proof.
  rewrite select_run, handleSearch_run. cbn [fst log].
  eexists.
  destruct (negb (isSameCourse p text || isSameProfessor p text) && resetState p);
    [right|left]; reflexivity.
Qed.

(** Every event leaves the log alone or appends one of five shapes. *)
Lemma step_log_cases (p : SearchBarProps) (ev : Event) (w : World) :
  log (step p ev w) = log w
  \/ (exists input,
        (1 < String.length (JS.trim input))%nat /\
        log (step p ev w)
        = (log w ++ [Invoked input; HttpGet (nextId w) (searchUrl (JS.trim input))])%list)
  \/ (exists input,
        (String.length (JS.trim input) <= 1)%nat /\
        log (step p ev w) = (log w ++ [Invoked input])%list)
  \/ (exists e, log (step p ev w) = (log w ++ [ConsoleError e])%list)
  \/ (exists url, log (step p ev w) = (log w ++ [RouterPush url])%list)
  \/ (exists url, log (step p ev w) = (log w ++ [ResetStateCalled; RouterPush url])%list).
Proof.
  destruct ev as [input|dt|id o|index| | |v].
  - left. reflexivity.
  - destruct (Debounce.due (now w + Z.max 0 dt) (pending w)) as [input|] eqn:E.
    + rewrite (step_Tick_fire p dt w input E), fetchSuggestions_call_run.
      destruct (Nat.ltb_spec 1 (String.length (JS.trim input))).
      * right. left. exists input. split; [assumption|reflexivity].
      * right. right. left. exists input. split; [assumption|reflexivity].
    + left. rewrite (step_Tick_wait p dt w E). reflexivity.
  - destruct (inflight w !! id) as [url|] eqn:E.
    + rewrite step_FetchSettled by eauto. cbn [log].
      destruct (failure o) as [e|].
      * do 3 right. left. exists e. reflexivity.
      * left. apply app_nil_r.
    + left. cbn. rewrite E. reflexivity.
  - cbn [step]. destruct (isLoading w); [left; reflexivity|].
    destruct (nth_error (suggestions w) index) as [s|]; [|left; reflexivity].
    destruct (select_log p (suggestion s) w) as [url [H|H]].
    * do 4 right. left. eauto.
    * do 5 right. eauto.
  - cbn [step]. unfold selectFirst. destruct (suggestions w) as [|s l] eqn:S; [left; reflexivity|].
    destruct (select_log p (suggestion s) w) as [url [H|H]].
    * do 4 right. left. eauto.
    * do 5 right. eauto.
  - cbn [step]. unfold selectFirst. destruct (suggestions w) as [|s l] eqn:S; [left; reflexivity|].
    destruct (select_log p (suggestion s) w) as [url [H|H]].
    * do 4 right. left. eauto.
    * do 5 right. eauto.
  - left. cbn. unfold run_handler, initialValueEffect, bind, setSearchInput, setSuggestions, ret.
    destruct (String.eqb v ""); reflexivity.
Qed.

(** X1.  When an outstanding request comes back with a status in 200-299
    and a body that parses, the list becomes exactly the data received,
    the loading flag is cleared, nothing is written to the console, the
    request is no longer outstanding and the input is untouched. *)
Theorem X1_fetch_success_replaces_list
    (p : SearchBarProps) (w : World) (id : nat) (url : string)
    (status : Z) (data : list Suggestion) :
  inflight w !! id = Some url ->
  response_ok status = true ->
  suggestions (step p (FetchSettled id (HttpResponse status (BodyJson data))) w) = data /\
  isLoading (step p (FetchSettled id (HttpResponse status (BodyJson data))) w) = false /\
  log (step p (FetchSettled id (HttpResponse status (BodyJson data))) w) = log w /\
  inflight (step p (FetchSettled id (HttpResponse status (BodyJson data))) w)
  = delete id (inflight w) /\
  searchInput (step p (FetchSettled id (HttpResponse status (BodyJson data))) w)
  = searchInput w.
Proof.
  intros Hid Hok. rewrite step_FetchSettled by eauto.
  cbn. rewrite Hok, app_nil_r. repeat split.
Qed.

Lemma X1_fetch_success_example :
  suggestions (step onHomePage (FetchSettled 1 (HttpResponse 200 (BodyJson [cse1310]))) twoInFlight)
  = [cse1310] /\
  isLoading (step onHomePage (FetchSettled 1 (HttpResponse 200 (BodyJson [cse1310]))) twoInFlight)
  = false /\
  log (step onHomePage (FetchSettled 1 (HttpResponse 200 (BodyJson [cse1310]))) twoInFlight)
  = log twoInFlight /\
  inflight (step onHomePage (FetchSettled 1 (HttpResponse 200 (BodyJson [cse1310]))) twoInFlight)
  = delete 1%nat (inflight twoInFlight) /\
  searchInput (step onHomePage (FetchSettled 1 (HttpResponse 200 (BodyJson [cse1310]))) twoInFlight)
  = searchInput twoInFlight.
Proof.
  apply (X1_fetch_success_replaces_list onHomePage twoInFlight 1 (searchUrl "cse 1")
           200 [cse1310]).
  - reflexivity.
  - reflexivity.
Defined.

(** X3.  Every request the component sends goes to
    /api/courses/search?query=<q>, where <q> is the encoding of the
    trimmed argument of a call of the debounced function, that trimmed
    argument is longer than one character, and <q> holds nothing but
    unreserved characters and percent signs. *)
Theorem X3_requests_are_well_formed
    (p : SearchBarProps) (evs : list Event) (url : string) :
  In url (requests (log (run p evs (mount p)))) ->
  exists input,
    In input (invocations (log (run p evs (mount p)))) /\
    (1 < String.length (JS.trim input))%nat /\
    url = "/api/courses/search?query=" ++ JS.encodeURIComponent (JS.trim input) /\
    forall c, contains c (JS.encodeURIComponent (JS.trim input)) = true ->
              isUrlSafe c = true.
Proof.
  induction evs as [|ev evs IH] using rev_ind; [intros []|].
  rewrite run_snoc.
  assert (Hkeep : In url (requests (log (run p evs (mount p)))) ->
                  forall added,
                    exists input,
                      In input (invocations (log (run p evs (mount p)) ++ added)) /\
                      (1 < String.length (JS.trim input))%nat /\
                      url = "/api/courses/search?query=" ++ JS.encodeURIComponent (JS.trim input) /\
                      forall c, contains c (JS.encodeURIComponent (JS.trim input)) = true ->
                                isUrlSafe c = true).
  { intros Hin added. destruct (IH Hin) as (input & H1 & H2 & H3 & H4).
    exists input. rewrite invocations_app. repeat split; auto.
    apply in_or_app. left. exact H1. }
  destruct (step_log_cases p ev (run p evs (mount p)))
    as [H|[(input & Hlen & H)|[(input & _ & H)|[(e' & H)|[(u & H)|(u & H)]]]]];
    rewrite H; try (rewrite requests_app; cbn [requests flat_map app];
                    rewrite ?app_nil_r; intros Hin; apply Hkeep, Hin).
  - exact IH.
  - rewrite requests_app. cbn [requests flat_map app]. intros Hin.
    apply in_app_or in Hin as [Hin|Hin]; [apply Hkeep, Hin|].
    destruct Hin as [<-|[]].
    exists input. rewrite invocations_app. repeat split; auto.
    + apply in_or_app. right. left. reflexivity.
    + apply encodeURIComponent_safe.
Qed.

Lemma X3_requests_example :
  exists input,
    In input (invocations (log twoInFlight)) /\
    (1 < String.length (JS.trim input))%nat /\
    "/api/courses/search?query=cse%203"
    = "/api/courses/search?query=" ++ JS.encodeURIComponent (JS.trim input) /\
    forall c, contains c (JS.encodeURIComponent (JS.trim input)) = true ->
              isUrlSafe c = true.
Proof.
  apply (X3_requests_are_well_formed onHomePage
           [InputChange "cse 3"; Tick quietWindow; InputChange "cse 1"; Tick quietWindow]
           "/api/courses/search?query=cse%203").
  left. reflexivity.
Defined.

(** ** Requests are never cancelled *)

(** A request stays outstanding through every event other than its own
    settling. *)
Lemma step_keeps_outstanding (p : SearchBarProps) (ev : Event) (w : World) (id : nat) :
  (forall o, ev <> FetchSettled id o) ->
  is_Some (inflight w !! id) ->
  is_Some (inflight (step p ev w) !! id).
Proof.
  intros Hev Hid.
  destruct ev as [input|dt|id' o|index| | |v].
  - rewrite step_InputChange. exact Hid.
  - destruct (Debounce.due (now w + Z.max 0 dt) (pending w)) as [input|] eqn:E.
    + rewrite (step_Tick_fire p dt w input E), fetchSuggestions_call_run.
      destruct (1 <? String.length (JS.trim input))%nat; cbn; [|exact Hid].
      apply lookup_insert_is_Some.
      destruct (decide (nextId w = id)); [left|right]; auto.
    + rewrite (step_Tick_wait p dt w E). exact Hid.
  - assert (id' <> id) by (intros ->; exact (Hev o eq_refl)).
    destruct (inflight w !! id') as [url|] eqn:E.
    + rewrite step_FetchSettled by eauto. cbn.
      rewrite lookup_delete_ne by assumption. exact Hid.
    + cbn. rewrite E. exact Hid.
  - cbn [step]. destruct (isLoading w); [exact Hid|].
    destruct (nth_error (suggestions w) index) as [s|]; [|exact Hid].
    rewrite select_run, handleSearch_run. exact Hid.
  - cbn [step]. unfold selectFirst. destruct (suggestions w) as [|s l]; [exact Hid|].
    rewrite select_run, handleSearch_run. exact Hid.
  - cbn [step]. unfold selectFirst. destruct (suggestions w) as [|s l]; [exact Hid|].
    rewrite select_run, handleSearch_run. exact Hid.
  - cbn. unfold run_handler, initialValueEffect, bind, setSearchInput, setSuggestions, ret.
    destruct (String.eqb v ""); exact Hid.
Qed.

Lemma run_keeps_outstanding (p : SearchBarProps) (evs : list Event) (w : World) (id : nat) :
  Forall (fun ev => forall o, ev <> FetchSettled id o) evs ->
  is_Some (inflight w !! id) ->
  is_Some (inflight (run p evs w) !! id).
Proof.
  revert w. induction evs as [|ev evs IH]; intros w Hevs Hid; [exact Hid|].
  inversion Hevs as [|? ? Hev Hrest]; subst. cbn.
  apply IH; [exact Hrest|]. apply step_keeps_outstanding; assumption.
Qed.

(** X4.  Nothing cancels a request that is out: whatever happens between
    its sending and its settling (typing, selections, other requests
    going out or coming back, a new [initialValue]), its response is
    applied to the list when it arrives and clears the loading flag. *)
Theorem X4_response_is_always_applied
    (p : SearchBarProps) (w : World) (id : nat) (evs : list Event) (o : FetchOutcome) :
  is_Some (inflight w !! id) ->
  Forall (fun ev => forall o', ev <> FetchSettled id o') evs ->
  suggestions (step p (FetchSettled id o) (run p evs w)) = delivered o /\
  isLoading (step p (FetchSettled id o) (run p evs w)) = false.
Proof.
  intros Hid Hevs.
  rewrite step_FetchSettled by (apply run_keeps_outstanding; assumption).
  split; reflexivity.
Qed.

Lemma X4_response_after_selection_example :
  suggestions (step onHomePage (FetchSettled 0 (HttpResponse 200 (BodyJson [cse3320])))
                 (run onHomePage
                    [FetchSettled 1 (HttpResponse 200 (BodyJson [cse1310]));
                     PressEnter; InputChange ""; Tick 500]
                    twoInFlight))
  = delivered (HttpResponse 200 (BodyJson [cse3320])) /\
  isLoading (step onHomePage (FetchSettled 0 (HttpResponse 200 (BodyJson [cse3320])))
               (run onHomePage
                  [FetchSettled 1 (HttpResponse 200 (BodyJson [cse1310]));
                   PressEnter; InputChange ""; Tick 500]
                  twoInFlight))
  = false.
Proof.
  apply (X4_response_is_always_applied onHomePage twoInFlight 0
           [FetchSettled 1 (HttpResponse 200 (BodyJson [cse1310]));
            PressEnter; InputChange ""; Tick 500]
           (HttpResponse 200 (BodyJson [cse3320]))).
  - exists (searchUrl "cse 3"). reflexivity.
  - repeat constructor; discriminate.
Defined.

(** ** Without a keystroke *)

Lemma idle_step (p : SearchBarProps) (ev : Event) (w : World) :
  isKeystroke ev = false ->
  pending w = None /\ inflight w = ∅ /\ suggestions w = [] /\
  isLoading w = false /\ log w = [] ->
  pending (step p ev w) = None /\ inflight (step p ev w) = ∅ /\
  suggestions (step p ev w) = [] /\ isLoading (step p ev w) = false /\
  log (step p ev w) = [].
Proof.
  intros Hev (Hp & Hi & Hs & Hl & Hlog).
  destruct ev as [input|dt|id o|index| | |v]; try discriminate Hev.
  - rewrite step_Tick_wait by (rewrite Hp; reflexivity). cbn. auto.
  - cbn [step]. rewrite Hi, lookup_empty. rewrite Hi in *. auto.
  - cbn [step]. rewrite Hl, Hs. destruct index; cbn [nth_error]; rewrite ?Hs, ?Hl; auto.
  - cbn [step]. unfold selectFirst. rewrite Hs. rewrite ?Hs. auto.
  - cbn [step]. unfold selectFirst. rewrite Hs. rewrite ?Hs. auto.
  - cbn. unfold run_handler, initialValueEffect, bind, setSearchInput, setSuggestions, ret.
    destruct (String.eqb v ""); cbn; auto.
Qed.

(** X5.  Until the user types, the component does nothing: whatever
    [initialValue] it is mounted with or is given later, however much
    time passes and whatever else happens, the list stays empty, the
    loading flag stays off, and nothing is requested, logged or
    navigated to. *)
Theorem X5_nothing_happens_without_keystroke
    (p : SearchBarProps) (evs : list Event) :
  Forall (fun ev => isKeystroke ev = false) evs ->
  suggestions (run p evs (mount p)) = [] /\
  isLoading (run p evs (mount p)) = false /\
  log (run p evs (mount p)) = [].
Proof.
  intros Hevs.
  assert (H : pending (run p evs (mount p)) = None /\
              inflight (run p evs (mount p)) = ∅ /\
              suggestions (run p evs (mount p)) = [] /\
              isLoading (run p evs (mount p)) = false /\
              log (run p evs (mount p)) = []).
  { induction evs as [|ev evs IH] using rev_ind; [cbn; auto 6|].
    apply Forall_app in Hevs as [Hevs Hev]. inversion Hev; subst.
    rewrite run_snoc. apply idle_step; auto. }
  tauto.
Qed.

Lemma X5_prefilled_example :
  suggestions (run (onCoursePage "CSE 3320")
                 [InitialValueChanged "CSE 3320"; Tick 1000; PressEnter;
                  ClickSearchIcon; InitialValueChanged ""]
                 (mount (onCoursePage "CSE 3320"))) = [] /\
  isLoading (run (onCoursePage "CSE 3320")
               [InitialValueChanged "CSE 3320"; Tick 1000; PressEnter;
                ClickSearchIcon; InitialValueChanged ""]
               (mount (onCoursePage "CSE 3320"))) = false /\
  log (run (onCoursePage "CSE 3320")
         [InitialValueChanged "CSE 3320"; Tick 1000; PressEnter;
          ClickSearchIcon; InitialValueChanged ""]
         (mount (onCoursePage "CSE 3320"))) = [].
Proof.
  apply (X5_nothing_happens_without_keystroke (onCoursePage "CSE 3320")
           [InitialValueChanged "CSE 3320"; Tick 1000; PressEnter;
            ClickSearchIcon; InitialValueChanged ""]).
  repeat constructor.
Defined.

(** ** Selection against the debounce *)

(** X7.  Selecting a suggestion does not cancel the debounced call: when
    the user types and selects before the quiet window has passed, the
    debounced function is still called with the typed text once the
    window has passed, and for a text longer than one character after
    trimming the request goes out and the loading flag is set. *)
Theorem X7_selection_keeps_waiting_call
    (p : SearchBarProps) (w : World) (input text : string) (dt : Z) :
  quietWindow <= dt ->
  invocations (log (step p (Tick dt) (select p text (step p (InputChange input) w))))
  = (invocations (log w) ++ [input])%list /\
  ((1 < String.length (JS.trim input))%nat ->
   isLoading (step p (Tick dt) (select p text (step p (InputChange input) w))) = true /\
   requests (log (step p (Tick dt) (select p text (step p (InputChange input) w))))
   = (requests (log w) ++ [searchUrl (JS.trim input)])%list).
Proof.
  intros Hdt.
  assert (Hdue : Debounce.due
                   (now (select p text (step p (InputChange input) w)) + Z.max 0 dt)
                   (pending (select p text (step p (InputChange input) w)))
                 = Some input).
  { rewrite select_run, handleSearch_run, step_InputChange. cbn.
    unfold quietWindow in *.
    destruct (Z.leb_spec (now w + 300) (now w + Z.max 0 dt)); [reflexivity|lia]. }
  rewrite (step_Tick_fire p dt _ input Hdue), fetchSuggestions_call_run.
  assert (Hinv : invocations (log (select p text (step p (InputChange input) w)))
                 = invocations (log w)).
  { destruct (select_log p text (step p (InputChange input) w)) as [url [H|H]];
      rewrite H, invocations_app; cbn; apply app_nil_r. }
  assert (Hreq : requests (log (select p text (step p (InputChange input) w)))
                 = requests (log w)).
  { destruct (select_log p text (step p (InputChange input) w)) as [url [H|H]];
      rewrite H, requests_app; cbn; apply app_nil_r. }
  destruct (Nat.ltb_spec 1 (String.length (JS.trim input))) as [Hlong|Hshort];
    cbn [fst log isLoading setPending setNow];
    rewrite invocations_app, Hinv; (split; [reflexivity|]).
  - intros _. rewrite requests_app, Hreq. split; reflexivity.
  - intros Hlong. lia.
Qed.

Lemma X7_type_then_enter_example :
  invocations (log (step onHomePage (Tick 300)
                      (select onHomePage "CSE 3320 OPERATING SYSTEMS"
                         (step onHomePage (InputChange "cse 33")
                            (showing onHomePage "cse 3" [cse3320])))))
  = (invocations (log (showing onHomePage "cse 3" [cse3320])) ++ ["cse 33"])%list /\
  ((1 < String.length (JS.trim "cse 33"))%nat ->
   isLoading (step onHomePage (Tick 300)
                (select onHomePage "CSE 3320 OPERATING SYSTEMS"
                   (step onHomePage (InputChange "cse 33")
                      (showing onHomePage "cse 3" [cse3320])))) = true /\
   requests (log (step onHomePage (Tick 300)
                    (select onHomePage "CSE 3320 OPERATING SYSTEMS"
                       (step onHomePage (InputChange "cse 33")
                          (showing onHomePage "cse 3" [cse3320])))))
   = (requests (log (showing onHomePage "cse 3" [cse3320]))
      ++ [searchUrl (JS.trim "cse 33")])%list).
Proof.
  apply (X7_selection_keeps_waiting_call onHomePage
           (showing onHomePage "cse 3" [cse3320]) "cse 33"
           "CSE 3320 OPERATING SYSTEMS" 300).
  discriminate.
Defined.

(** ** Selections *)

(** X8.  A selection navigates exactly once, and a call of [resetState]
    comes before the navigation, never after it and never twice; without
    a [resetState] prop the navigation is the only effect. *)
Theorem X8_one_navigation_per_selection
    (p : SearchBarProps) (shown : list Suggestion) (text : string) (w : World) :
  exists url,
    (effects_of (handleSearch p shown text) w = [RouterPush url] \/
     effects_of (handleSearch p shown text) w = [ResetStateCalled; RouterPush url]) /\
    (resetState p = false ->
     effects_of (handleSearch p shown text) w = [RouterPush url]).
Proof.
  rewrite handleSearch_effects. eexists.
  destruct (resetState p); rewrite ?andb_false_r, ?andb_true_r.
  - split; [|discriminate].
    destruct (negb (isSameCourse p text || isSameProfessor p text));
      [right|left]; reflexivity.
  - split; [left|intros _]; reflexivity.
Qed.

Lemma selectFirst_nil (p : SearchBarProps) (w : World) :
  suggestions w = [] -> selectFirst p w = w.
Proof. intros H. unfold selectFirst. rewrite H. reflexivity. Qed.

Lemma selectFirst_cons (p : SearchBarProps) (w : World) (s : Suggestion) (l : list Suggestion) :
  suggestions w = s :: l -> selectFirst p w = select p (suggestion s) w.
Proof. intros H. unfold selectFirst. rewrite H. reflexivity. Qed.

Lemma select_empties_list (p : SearchBarProps) (text : string) (w : World) :
  suggestions (select p text w) = [].
Proof. rewrite select_run, handleSearch_run. reflexivity. Qed.

(** X9.  Pressing Enter twice navigates once: the first Enter empties the
    list, so the second finds nothing to select and changes nothing. *)
Theorem X9_second_enter_does_nothing (p : SearchBarProps) (w : World) :
  step p PressEnter (step p PressEnter w) = step p PressEnter w.
Proof.
  cbn [step]. destruct (suggestions w) as [|s l] eqn:E.
  - rewrite !(selectFirst_nil p w E). reflexivity.
  - rewrite (selectFirst_cons p w s l E).
    apply selectFirst_nil, select_empties_list.
Qed.

(** X10.  While the loading flag is set the list is not rendered, so no
    list item can be clicked; the Enter key does not look at the flag and
    still selects the first suggestion of the list in the store: the
    input takes its text and the router is pushed once. *)
Theorem X10_enter_selects_while_loading
    (p : SearchBarProps) (w : World) (s : Suggestion) (l : list Suggestion) :
  isLoading w = true ->
  suggestions w = s :: l ->
  (forall index, step p (ClickSuggestion index) w = w) /\
  searchInput (step p PressEnter w) = suggestion s /\
  exists url, pushes (log (step p PressEnter w)) = (pushes (log w) ++ [url])%list.
Proof.
  intros Hl Hs. split; [intros index; cbn; rewrite Hl; reflexivity|].
  cbn [step]. rewrite (selectFirst_cons p w s l Hs).
  split; [rewrite select_run, handleSearch_run; reflexivity|].
  destruct (select_log p (suggestion s) w) as [url [H|H]];
    exists url; rewrite H, pushes_app; reflexivity.
Qed.

Lemma X10_enter_while_loading_example :
  (forall index,
      step onHomePage (ClickSuggestion index)
        (run onHomePage [InputChange "cse 33"; Tick 300] (showing onHomePage "cse 3" [cse3320]))
      = run onHomePage [InputChange "cse 33"; Tick 300] (showing onHomePage "cse 3" [cse3320])) /\
  searchInput
    (step onHomePage PressEnter
       (run onHomePage [InputChange "cse 33"; Tick 300] (showing onHomePage "cse 3" [cse3320])))
  = suggestion cse3320 /\
  exists url,
    pushes (log (step onHomePage PressEnter
                   (run onHomePage [InputChange "cse 33"; Tick 300]
                      (showing onHomePage "cse 3" [cse3320]))))
    = (pushes (log (run onHomePage [InputChange "cse 33"; Tick 300]
                      (showing onHomePage "cse 3" [cse3320]))) ++ [url])%list.
Proof.
  apply (X10_enter_selects_while_loading onHomePage
           (run onHomePage [InputChange "cse 33"; Tick 300] (showing onHomePage "cse 3" [cse3320]))
           cse3320 []).
  - reflexivity.
  - reflexivity.
Defined.

(** ** The URL a selection navigates to *)

(** X11.  The URL a selection pushes is /results?professor=<q> or
    /results?course=<q> where <q> holds nothing but unreserved characters
    and percent signs: no text can add a query parameter, a fragment or a
    path to it. *)
Theorem X11_navigation_url_is_safe
    (p : SearchBarProps) (shown : list Suggestion) (text : string) (w : World) :
  exists param q,
    pushes (effects_of (handleSearch p shown text) w) = ["/results?" ++ param ++ "=" ++ q] /\
    (param = "professor" \/ param = "course") /\
    (forall c, contains c q = true -> isUrlSafe c = true) /\
    contains "&" q = false /\ contains "=" q = false /\ contains "?" q = false /\
    contains "#" q = false /\ contains "/" q = false /\ contains " " q = false.
Proof.
  assert (Hnot : forall c q,
             (forall c, contains c q = true -> isUrlSafe c = true) ->
             isUrlSafe c = false -> contains c q = false).
  { intros c q Hsafe Hc. destruct (contains c q) eqn:E; [|reflexivity].
    rewrite (Hsafe c E) in Hc. discriminate Hc. }
  rewrite handleSearch_pushes.
  exists (match isProfessor shown text with Some _ => "professor" | None => "course" end).
  exists (JS.encodeURIComponent (reassigned text)).
  split; [destruct (isProfessor shown text); reflexivity|].
  split; [destruct (isProfessor shown text); auto|].
  pose proof (encodeURIComponent_safe (reassigned text)) as Hsafe.
  split; [exact Hsafe|].
  repeat split; apply Hnot; auto.
Qed.

(** X12.  Two selections push the same URL only if they resolve to the
    same category and the same identifier: the encoding loses nothing. *)
Theorem X12_navigation_url_determines_target
    (p1 p2 : SearchBarProps) (shown1 shown2 : list Suggestion)
    (text1 text2 : string) (w1 w2 : World) :
  pushes (effects_of (handleSearch p1 shown1 text1) w1)
  = pushes (effects_of (handleSearch p2 shown2 text2) w2) ->
  reassigned text1 = reassigned text2 /\
  (is_Some (isProfessor shown1 text1) <-> is_Some (isProfessor shown2 text2)).
Proof.
  rewrite !handleSearch_pushes. intros H. injection H as H.
  destruct (isProfessor shown1 text1) as [h1|], (isProfessor shown2 text2) as [h2|];
    cbv beta iota delta [String.append] in H; fold String.append in H;
    injection H as H.
  - apply encodeURIComponent_inj in H. split; [exact H|]. split; eauto.
  - discriminate H.
  - discriminate H.
  - apply encodeURIComponent_inj in H. split; [exact H|].
    split; intros [x Hx]; discriminate Hx.
Qed.

Lemma X12_same_url_example :
  reassigned "CSE 3320 OPERATING SYSTEMS" = reassigned "CSE 3320 OS" /\
  (is_Some (isProfessor [cse3320] "CSE 3320 OPERATING SYSTEMS")
   <-> is_Some (isProfessor [] "CSE 3320 OS")).
Proof.
  apply (X12_navigation_url_determines_target onHomePage (onCoursePage "CSE 3320")
           [cse3320] [] "CSE 3320 OPERATING SYSTEMS" "CSE 3320 OS"
           (mount onHomePage) (mount (onCoursePage "CSE 3320"))).
  reflexivity.
Defined.

(** ** The identifier *)

(** X13.  A text made of a subject without spaces, a space, four decimal
    digits, a space and any title resolves to the identifier
    "<subject> <digits>"; so does the text without a title. *)
Theorem X13_course_text_resolves_to_subject_and_number
    (subject number title : string) :
  contains " " subject = false ->
  String.length number = 4%nat ->
  JS.allChars JS.isDecimalDigit number = true ->
  reassigned (subject ++ " " ++ number ++ " " ++ title) = subject ++ " " ++ number /\
  reassigned (subject ++ " " ++ number) = subject ++ " " ++ number.
Proof.
  intros Hsubject Hlen Hdigits.
  pose proof (digits_no_space number Hdigits) as Hnumber.
  pose proof (digits_not_NaN number Hdigits) as Hnum.
  split.
  - rewrite reassigned_tokens.
    change (subject ++ " " ++ number ++ " " ++ title)
      with (subject ++ String " " (number ++ String " " title)).
    rewrite !split_app_sep by assumption.
    rewrite Hlen, Hnum. reflexivity.
  - rewrite reassigned_tokens, two_pieces_split by assumption.
    rewrite Hlen, Hnum. reflexivity.
Qed.

Lemma X13_cse_3320_example :
  reassigned ("CSE" ++ " " ++ "3320" ++ " " ++ "OPERATING SYSTEMS") = "CSE" ++ " " ++ "3320" /\
  reassigned ("CSE" ++ " " ++ "3320") = "CSE" ++ " " ++ "3320".
Proof.
  apply (X13_course_text_resolves_to_subject_and_number "CSE" "3320" "OPERATING SYSTEMS").
  - reflexivity.
  - reflexivity.
  - reflexivity.
Defined.

(** X14.  Resolving an identifier again gives the same identifier. *)
Theorem X14_identifier_is_stable (text : string) :
  reassigned (reassigned text) = reassigned text.
Proof.
  rewrite (reassigned_tokens text).
  pose proof (split_pieces_free " " text) as Hfree.
  destruct (JS.split " " text) as [|token1 [|token2 others]] eqn:Hsplit.
  - rewrite reassigned_tokens, Hsplit. reflexivity.
  - rewrite reassigned_tokens, Hsplit. reflexivity.
  - destruct ((String.length token2 =? 4)%nat && negb (JS.Number_isNaN token2)) eqn:Hcond.
    + inversion Hfree as [|? ? H1 Hrest]; subst.
      inversion Hrest as [|? ? H2 _]; subst.
      rewrite reassigned_tokens, two_pieces_split by assumption.
      rewrite Hcond. reflexivity.
    + rewrite reassigned_tokens, Hsplit, Hcond. reflexivity.
Qed.

(** X15.  The identifier is a beginning of the selected text: the text
    itself, or its first two space-separated pieces. *)
Theorem X15_identifier_begins_the_text (text : string) :
  exists rest, text = reassigned text ++ rest.
Proof. exact (reassigned_prefix text). Qed.

(** X16.  On the results page of a course, selecting again a text that
    resolves to that course never calls [resetState]: when [course] is
    the identifier of the selected text and the route type is "course",
    the selection only navigates. *)
Theorem X16_reselecting_the_course_keeps_state
    (p : SearchBarProps) (shown : list Suggestion) (text : string) (w : World) :
  text <> "" ->
  course p = Some (reassigned text) ->
  routeType p = Some RouteCourse ->
  ~ In ResetStateCalled (effects_of (handleSearch p shown text) w).
Proof.
  intros Hne Hcourse Hroute.
  assert (Hsame : isSameCourse p text = true).
  { apply isSameCourse_spec. split; [exact Hroute|].
    exists (reassigned text). split; [exact Hcourse|].
    split; [apply reassigned_not_empty, Hne | apply reassigned_prefix]. }
  rewrite handleSearch_effects, Hsame. cbn.
  intros [H|[]]. discriminate H.
Qed.

Lemma X16_reselect_example :
  ~ In ResetStateCalled
      (effects_of (handleSearch (onCoursePage "CSE 3320") [cse3320]
                     "CSE 3320 OPERATING SYSTEMS")
         (mount (onCoursePage "CSE 3320"))).
Proof.
  apply (X16_reselecting_the_course_keeps_state (onCoursePage "CSE 3320") [cse3320]
           "CSE 3320 OPERATING SYSTEMS" (mount (onCoursePage "CSE 3320"))).
  - discriminate.
  - reflexivity.
  - reflexivity.
Defined.

(** ** The identifier, piece by piece *)

Lemma navigatesTo_reassigned (p : SearchBarProps) (w : World) (text : string) :
  navigatesTo p w text (reassigned text).
Proof.
  unfold navigatesTo. rewrite handleSearch_pushes.
  destruct (isProfessor (suggestions w) text).
  - exists "professor". split; [left|]; reflexivity.
  - exists "course". split; [right|]; reflexivity.
Qed.

(** The pieces of a text that starts with a space-free piece, a space, a
    second space-free piece and then ends or goes on after a space. *)
Lemma split_two_pieces (first second rest : string) :
  contains " " first = false ->
  contains " " second = false ->
  rest = "" \/ (exists title, rest = " " ++ title) ->
  exists others, JS.split " " (first ++ " " ++ second ++ rest) = first :: second :: others.
Proof.
  intros Hfirst Hsecond [->|[title ->]].
  - rewrite append_nil_r. exists []. apply two_pieces_split; assumption.
  - exists (JS.split " " title).
    change (first ++ " " ++ second ++ " " ++ title)
      with (first ++ String " " (second ++ String " " title)).
    rewrite !split_app_sep by assumption. reflexivity.
Qed.

Lemma letter_not_whitespace (c : ascii) :
  isAsciiLetter c = true -> JS.isWhiteSpace c = false.
Proof.
  destruct c as [[] [] [] [] [] [] [] []]; intros H; try discriminate H; reflexivity.
Qed.

Lemma trimEnd_cons (c : ascii) (r : string) :
  JS.isWhiteSpace c = false -> JS.trimEnd (String c r) = String c (JS.trimEnd r).
Proof.
  intros Hc. cbn [JS.trimEnd]. rewrite Hc. destruct (JS.trimEnd r); reflexivity.
Qed.

Lemma trimEnd_length (r : string) :
  (String.length (JS.trimEnd r) <= String.length r)%nat.
Proof.
  induction r as [|c r IH]; [reflexivity|].
  cbn [JS.trimEnd]. destruct (JS.trimEnd r) as [|d t].
  - destruct (JS.isWhiteSpace c); cbn; lia.
  - cbn in *. lia.
Qed.

(** A string that begins with a letter and is shorter than "Infinity" is
    not a numeric literal. *)
Lemma letter_first_not_literal (c : ascii) (t : string) :
  isAsciiLetter c = true ->
  (String.length t <= 3)%nat ->
  JS.isStrNumericLiteral (String c t) = false.
Proof.
  intros Hc Ht.
  assert (Hinf : String.eqb t "nfinity" = false).
  { destruct t as [|a [|b [|d [|e t]]]]; cbn in Ht; try lia;
      apply String.eqb_neq; intros H; apply (f_equal String.length) in H;
      cbn in H; lia. }
  destruct c as [[] [] [] [] [] [] [] []]; try discriminate Hc;
    try reflexivity.
  unfold JS.isStrNumericLiteral, JS.dropSign, JS.isStrUnsignedDecimalLiteral.
  change (String.eqb (String "I" t) "Infinity") with (String.eqb t "nfinity").
  rewrite Hinf. reflexivity.
Qed.

Lemma letter_first_NaN (c : ascii) (r : string) :
  isAsciiLetter c = true ->
  (String.length r <= 3)%nat ->
  JS.Number_isNaN (String c r) = true.
Proof.
  intros Hc Hr. pose proof (letter_not_whitespace c Hc) as Hws.
  unfold JS.Number_isNaN, JS.trim. cbn [JS.trimStart]. rewrite Hws.
  rewrite (trimEnd_cons c r Hws).
  rewrite letter_first_not_literal; [reflexivity|exact Hc|].
  pose proof (trimEnd_length r). lia.
Qed.

(** C3, as the code has it.  The text is cut at every single space
    character.  When the second piece is four decimal digits, the
    identifier a selection navigates to is "<piece1> <piece2>".  When the
    text has no space, or its second piece is not four characters long,
    or is four characters long and begins with a letter, the identifier
    is the selected text as it was. *)
Theorem C3_identifier_by_pieces (p : SearchBarProps) (w : World) :
  (forall subject number rest,
      contains " " subject = false ->
      String.length number = 4%nat ->
      JS.allChars JS.isDecimalDigit number = true ->
      rest = "" \/ (exists title, rest = " " ++ title) ->
      navigatesTo p w (subject ++ " " ++ number ++ rest) (subject ++ " " ++ number))
  /\
  (forall text,
      contains " " text = false ->
      navigatesTo p w text text)
  /\
  (forall first second rest,
      contains " " first = false ->
      contains " " second = false ->
      String.length second <> 4%nat ->
      rest = "" \/ (exists title, rest = " " ++ title) ->
      navigatesTo p w (first ++ " " ++ second ++ rest) (first ++ " " ++ second ++ rest))
  /\
  (forall first letter tail rest,
      contains " " first = false ->
      contains " " (String letter tail) = false ->
      String.length (String letter tail) = 4%nat ->
      isAsciiLetter letter = true ->
      rest = "" \/ (exists title, rest = " " ++ title) ->
      navigatesTo p w (first ++ " " ++ String letter tail ++ rest)
        (first ++ " " ++ String letter tail ++ rest)).
Proof.
  repeat split.
  - intros subject number rest Hsubject Hlen Hdigits Hrest.
    destruct (split_two_pieces subject number rest Hsubject
                (digits_no_space number Hdigits) Hrest) as [others Hsplit].
    pose proof (navigatesTo_reassigned p w (subject ++ " " ++ number ++ rest)) as H.
    rewrite reassigned_tokens, Hsplit, Hlen, (digits_not_NaN number Hdigits) in H.
    exact H.
  - intros text Htext.
    pose proof (navigatesTo_reassigned p w text) as H.
    rewrite reassigned_tokens, (split_free " " text Htext) in H. exact H.
  - intros first second rest Hfirst Hsecond Hlen Hrest.
    destruct (split_two_pieces first second rest Hfirst Hsecond Hrest) as [others Hsplit].
    pose proof (navigatesTo_reassigned p w (first ++ " " ++ second ++ rest)) as H.
    rewrite reassigned_tokens, Hsplit in H.
    destruct (Nat.eqb_spec (String.length second) 4) as [E|_]; [contradiction|].
    exact H.
  - intros first letter tail rest Hfirst Hsecond Hlen Hletter Hrest.
    destruct (split_two_pieces first (String letter tail) rest Hfirst Hsecond Hrest)
      as [others Hsplit].
    pose proof (navigatesTo_reassigned p w (first ++ " " ++ String letter tail ++ rest)) as H.
    rewrite reassigned_tokens, Hsplit in H.
    rewrite letter_first_NaN in H; [|exact Hletter|cbn in Hlen; lia].
    rewrite andb_false_r in H. exact H.
Qed.

Lemma C3_identifier_examples :
  navigatesTo onHomePage (showing onHomePage "cse 3" [cse3320])
    ("CSE" ++ " " ++ "3320" ++ " OPERATING SYSTEMS") ("CSE" ++ " " ++ "3320") /\
  navigatesTo onHomePage (showing onHomePage "cse 3" [cse3320])
    "CSE3320" "CSE3320" /\
  navigatesTo onHomePage (showing onHomePage "cse 3" [cse3320Spaced])
    ("CSE" ++ " " ++ "" ++ " 3320 OPERATING SYSTEMS")
    ("CSE" ++ " " ++ "" ++ " 3320 OPERATING SYSTEMS") /\
  navigatesTo onHomePage (showing onHomePage "cse 3" [cse3320])
    ("CSE" ++ " " ++ "OPER" ++ " SYSTEMS") ("CSE" ++ " " ++ "OPER" ++ " SYSTEMS").
Proof.
  split; [|split; [|split]].
  - apply (proj1 (C3_identifier_by_pieces onHomePage
                    (showing onHomePage "cse 3" [cse3320]))
             "CSE" "3320" " OPERATING SYSTEMS").
    + reflexivity.
    + reflexivity.
    + reflexivity.
    + right. exists "OPERATING SYSTEMS". reflexivity.
  - apply (proj1 (proj2 (C3_identifier_by_pieces onHomePage
                           (showing onHomePage "cse 3" [cse3320])))
             "CSE3320").
    reflexivity.
  - apply (proj1 (proj2 (proj2 (C3_identifier_by_pieces onHomePage
                                  (showing onHomePage "cse 3" [cse3320Spaced]))))
             "CSE" "" " 3320 OPERATING SYSTEMS").
    + reflexivity.
    + reflexivity.
    + discriminate.
    + right. exists "3320 OPERATING SYSTEMS". reflexivity.
  - apply (proj2 (proj2 (proj2 (C3_identifier_by_pieces onHomePage
                                  (showing onHomePage "cse 3" [cse3320]))))
             "CSE" "O"%char "PER" " SYSTEMS").
    + reflexivity.
    + reflexivity.
    + reflexivity.
    + reflexivity.
    + right. exists "SYSTEMS". reflexivity.
Defined.

(** C3, as the spec words it, fails.  With two spaces after the subject
    the first two whitespace-delimited tokens are "CSE" and "3320", and
    the selection navigates to the whole text, not to "CSE 3320".  With
    the second token "1e10", which is not a four-digit number, the
    selection navigates to "CSE 1e10", not to the whole text. *)
Lemma C3_tokens_and_numbers_differ :
  spec_tokens "CSE  3320 OPERATING SYSTEMS" = ["CSE"; "3320"; "OPERATING"; "SYSTEMS"] /\
  spec_identifier "CSE  3320 OPERATING SYSTEMS" = "CSE 3320" /\
  pushes (effects_of
            (handleSearch onHomePage
               (suggestions (showing onHomePage "cse 3" [cse3320Spaced]))
               "CSE  3320 OPERATING SYSTEMS")
            (showing onHomePage "cse 3" [cse3320Spaced]))
  = ["/results?course=CSE%20%203320%20OPERATING%20SYSTEMS"] /\
  ~ navigatesTo onHomePage (showing onHomePage "cse 3" [cse3320Spaced])
      "CSE  3320 OPERATING SYSTEMS" (spec_identifier "CSE  3320 OPERATING SYSTEMS") /\
  spec_identifier "CSE 1e10 SEMINAR" = "CSE 1e10 SEMINAR" /\
  pushes (effects_of
            (handleSearch onHomePage
               (suggestions (showing onHomePage "cse 1" [cse1e10]))
               "CSE 1e10 SEMINAR")
            (showing onHomePage "cse 1" [cse1e10]))
  = ["/results?course=CSE%201e10"] /\
  ~ navigatesTo onHomePage (showing onHomePage "cse 1" [cse1e10])
      "CSE 1e10 SEMINAR" (spec_identifier "CSE 1e10 SEMINAR").
Proof.
  repeat split; try reflexivity.
  - intros [param [[->| ->] H]]; vm_compute in H; discriminate H.
  - intros [param [[->| ->] H]]; vm_compute in H; discriminate H.
Qed.
